(** * The declarative manifest reconciler (package [declarative])

    A shallow embedding of [ManifestReconciler] and of its state handlers.
    One reconciliation pass is a computation in a small state monad: the
    state holds the engine's mutable options, the object instance the pass
    works on (a Go pointer that every handler shares) and the log of the calls
    made to the cluster client and to the manifest library.  A Go runtime
    panic is an outcome of its own. *)

From stdpp Require Import gmap strings list.
From Stdlib Require Import ZArith Ascii.

Open Scope string_scope.
Open Scope Z_scope.

(** ** Errors and results *)

(** Go [error] values.  [None : option error] is the nil error. *)
Inductive error : Type :=
| TypeError (namespacedName : string)
| NotFoundError (key : string)
| ExternalError (msg : string)
| Errorf (msg : string) (cause : error).

(** [fmt.Errorf("invalid custom resource object type for reconciliation %s", ...)] *)
Definition getTypeError (namespacedName : string) : error :=
  TypeError namespacedName.

(** [client.IgnoreNotFound] *)
Definition IgnoreNotFound (err : error) : option error :=
  match err with
  | NotFoundError _ => None
  | _ => Some err
  end.

(** [ctrl.Result] *)
Record Result : Type := { Requeue : bool; RequeueAfter : Z }.

Definition Result_zero : Result := {| Requeue := false; RequeueAfter := 0 |}.

(** ** Data model *)

(** [metav1.Time] as an offset from Go's zero instant; [None] is the nil
    pointer. *)
Definition Time_IsZero (t : option Z) : bool :=
  match t with
  | None => true
  | Some z => z =? 0
  end.

(** The part of [metav1.Object] the reconciler reads and writes.  A nil
    label map is [None]: writing into it panics in Go. *)
Record ObjectMeta : Type := {
  Name : string;
  Namespace : string;
  DeletionTimestamp : option Z;
  Finalizers : list string;
  Labels : option (gmap string string)
}.

Definition ObjectKey_String (m : ObjectMeta) : string :=
  Namespace m ++ "/" ++ Name m.

(** Modelled from the spec: the [types] package (CustomObject,
    CustomObjectSpec, CustomObjectStatus and the CustomState constants) is
    imported by the reconciler but is not part of the sources.  The spec
    gives the status a state and an ordered sequence of conditions; the
    reconciler itself reads [ChartFlags], [ChartPath] and [ReleaseName]. *)
Record Condition : Type := {
  CondType : string;
  LastTransitionTime : string
}.

Record CustomObjectStatus : Type := {
  State : string;
  Conditions : list Condition
}.

Record CustomObjectSpec : Type := {
  ChartPath : string;
  ReleaseName : string;
  ChartFlags : string
}.

(** Modelled from the spec: the [CustomState] constants of the missing
    [types] package, with the names the state enumeration gives them. *)
Definition CustomStateProcessing : string := "Processing".
Definition CustomStateDeleting : string := "Deleting".
Definition CustomStateError : string := "Error".
Definition CustomStateReady : string := "Ready".

Definition CustomObjectStatus_zero : CustomObjectStatus :=
  {| State := ""; Conditions := [] |}.

Definition CustomObjectSpec_zero : CustomObjectSpec :=
  {| ChartPath := ""; ReleaseName := ""; ChartFlags := "" |}.

Definition withState (s : string) (status : CustomObjectStatus) : CustomObjectStatus :=
  {| State := s; Conditions := Conditions status |}.

(** A value whose dynamic type implements [types.CustomObject]. *)
Record CustomObject : Type := {
  TypedMeta : ObjectMeta;
  TypedSpec : CustomObjectSpec;
  TypedStatus : CustomObjectStatus;
  TypedComponentName : string
}.

(** JSON-like content of an unstructured object ([interface{}] trees). *)
#[warnings="-register-all"]
Inductive Value : Type :=
| VNull
| VBool (b : bool)
| VInt (z : Z)
| VStr (s : string)
| VList (l : list Value)
| VMap (m : gmap string Value).

(** [*unstructured.Unstructured].  [Object] is the attribute tree; the
    metadata subtree is kept as what the [metav1.Object] accessors of the
    unstructured type return and store. *)
Record Unstructured : Type := {
  Object : gmap string Value;
  UnstructuredMeta : ObjectMeta;
  Kind : string
}.

(** The dynamic type behind a [BaseCustomObject] interface value. *)
Inductive ObjectInstance : Type :=
| Typed (o : CustomObject)
| Generic (u : Unstructured)
| Foreign (m : ObjectMeta).

Definition GetMeta (objectInstance : ObjectInstance) : ObjectMeta :=
  match objectInstance with
  | Typed o => TypedMeta o
  | Generic u => UnstructuredMeta u
  | Foreign m => m
  end.

Definition SetMeta (m : ObjectMeta) (objectInstance : ObjectInstance) : ObjectInstance :=
  match objectInstance with
  | Typed o =>
      Typed {| TypedMeta := m; TypedSpec := TypedSpec o;
               TypedStatus := TypedStatus o;
               TypedComponentName := TypedComponentName o |}
  | Generic u =>
      Generic {| Object := Object u; UnstructuredMeta := m; Kind := Kind u |}
  | Foreign _ => Foreign m
  end.

Definition GetDeletionTimestamp (o : ObjectInstance) : option Z :=
  DeletionTimestamp (GetMeta o).

Definition GetFinalizers (o : ObjectInstance) : list string :=
  Finalizers (GetMeta o).

Definition SetFinalizers (f : list string) (o : ObjectInstance) : ObjectInstance :=
  let m := GetMeta o in
  SetMeta {| Name := Name m; Namespace := Namespace m;
             DeletionTimestamp := DeletionTimestamp m;
             Finalizers := f; Labels := Labels m |} o.

Definition GetLabels (o : ObjectInstance) : option (gmap string string) :=
  Labels (GetMeta o).

Definition SetLabels (l : option (gmap string string)) (o : ObjectInstance) : ObjectInstance :=
  let m := GetMeta o in
  SetMeta {| Name := Name m; Namespace := Namespace m;
             DeletionTimestamp := DeletionTimestamp m;
             Finalizers := Finalizers m; Labels := l |} o.

(** [client.ObjectKeyFromObject(obj).String()] *)
Definition ObjectKeyFromObject (o : ObjectInstance) : string :=
  ObjectKey_String (GetMeta o).

(** [typedObject.SetStatus(status)] *)
Definition SetStatus (status : CustomObjectStatus) (o : CustomObject) : CustomObject :=
  {| TypedMeta := TypedMeta o; TypedSpec := TypedSpec o;
     TypedStatus := status; TypedComponentName := TypedComponentName o |}.

(** ** Finalizer helpers of [controllerutil] *)

Definition deletionFinalizer : string := "custom-deletion-finalizer".

Definition containsFinalizer (f : list string) (finalizer : string) : bool :=
  existsb (String.eqb finalizer) f.

(** [controllerutil.AddFinalizer]: the object and whether it changed. *)
Definition AddFinalizer (o : ObjectInstance) (finalizer : string) : ObjectInstance * bool :=
  let f := GetFinalizers o in
  if containsFinalizer f finalizer then (o, false)
  else (SetFinalizers (f ++ [finalizer]) o, true).

(** [controllerutil.RemoveFinalizer]: every occurrence is dropped, and the
    finalizer list is stored back even when nothing was found. *)
Definition RemoveFinalizer (o : ObjectInstance) (finalizer : string) : ObjectInstance * bool :=
  let f := GetFinalizers o in
  (SetFinalizers (filter (fun e => e ≠ finalizer) f) o,
   containsFinalizer f finalizer).

Definition hasDeletionFinalizer (o : ObjectInstance) : bool :=
  containsFinalizer (GetFinalizers o) deletionFinalizer.

(** ** External collaborators *)

(** [rest.Config] of the destination cluster. *)
Record RestConfig : Type := { Host : string }.

(** [manifest.Operations], the manifest library client. *)
Record Operations : Type := {
  OperationsReleaseName : string;
  OperationsFlags : gmap string (gmap string Value)
}.

Record ChartInfo : Type := {
  ChartInfoChartPath : string;
  ChartInfoReleaseName : string
}.

(** [manifest.InstallInfo].  [BaseResource] is a pointer,
    [None] in the zero value only. *)
Record InstallInfo : Type := {
  InstallChartInfo : option ChartInfo;
  RemoteConfig : option RestConfig;
  BaseResource : option Unstructured;
  CheckFn : option (option Unstructured → bool * option error);
  CheckReadyStates : bool
}.

Definition InstallInfo_zero : InstallInfo :=
  {| InstallChartInfo := None; RemoteConfig := None; BaseResource := None;
     CheckFn := None; CheckReadyStates := false |}.

(** Reply of [nativeClient.Get], which fills the instance it is handed. *)
Inductive GetReply : Type :=
| Found (o : CustomObject)
| GetFailed (err : error).

(** What one pass can observe of the cluster client, of the helm and manifest
    libraries and of the unstructured converter.  Each is called at most
    once per pass, so a function of the arguments is enough. *)
Record Collaborators : Type := {
  client_Get : string → GetReply;
  client_Update : ObjectInstance → option error;
  client_StatusUpdate : ObjectInstance → option error;
  strvals_ParseInto : string → gmap string Value * option error;
  manifest_NewOperations :
    RestConfig → string → gmap string (gmap string Value) →
    option Operations * option error;
  manifest_Install : option Operations → InstallInfo → bool * option error;
  manifest_Uninstall : option Operations → InstallInfo → bool * option error;
  converter_ToUnstructured : CustomObject → gmap string Value * option error;
  converter_StatusToUnstructured : CustomObjectStatus → gmap string Value * option error;
  converter_StatusFromUnstructured :
    option (gmap string Value) → CustomObjectStatus * option error;
  converter_SpecFromUnstructured :
    option (gmap string Value) → CustomObjectSpec * option error
}.

(** [unstructured.NestedMap(obj, field)] for a single field: the map, whether
    it was found, and the accessor error for a value that is not a map. *)
Definition NestedMap (obj : gmap string Value) (field : string)
  : option (gmap string Value) * bool * option error :=
  match obj !! field with
  | None => (None, false, None)
  | Some (VMap m) => (Some m, true, None)
  | Some _ =>
      (None, false,
       Some (ExternalError ("." ++ field ++ " accessor error: expected map[string]interface{}")))
  end.

(** [unstructured.SetNestedMap(obj, value, field)] for a single field. *)
Definition SetNestedMap (obj : gmap string Value) (value : gmap string Value)
    (field : string) : gmap string Value * option error :=
  (<[field := VMap value]> obj, None).

(** ** The engine and the pass monad *)

Record manifestOptions : Type := {
  force : bool;
  verify : bool;
  resourceLabels : gmap string string
}.

Definition manifestOptions_zero : manifestOptions :=
  {| force := false; verify := false; resourceLabels := ∅ |}.

Record ManifestReconciler : Type := {
  prototype : ObjectInstance;
  config : RestConfig;
  options : manifestOptions
}.

(** Calls that leave the engine: writes to the cluster and calls into the
    manifest library. *)
Inductive Action : Type :=
| ActUpdate (o : ObjectInstance)
| ActStatusUpdate (o : ObjectInstance)
| ActNewOperations (flags : gmap string Value)
| ActInstall (ops : option Operations) (info : InstallInfo)
| ActUninstall (ops : option Operations) (info : InstallInfo).

(** The state a pass threads: [r.options], the pointee of [objectInstance],
    and the actions so far, oldest first. *)
Record Pass : Type := {
  engineOptions : manifestOptions;
  instance : ObjectInstance;
  actions : list Action
}.

Inductive Res (A : Type) : Type :=
| Val (a : A)
| Panicked (why : string).
Arguments Val {A} a.
Arguments Panicked {A} why.

Definition M (A : Type) : Type := Pass → Res A * Pass.

#[export] Instance M_ret : MRet M := fun A a s => (Val a, s).

#[export] Instance M_bind : MBind M := fun A B k m s =>
  match m s with
  | (Val a, s') => k a s'
  | (Panicked why, s') => (Panicked why, s')
  end.

Definition panic {A} (why : string) : M A := fun s => (Panicked why, s).

Definition readInstance : M ObjectInstance := fun s => (Val (instance s), s).

Definition writeInstance (o : ObjectInstance) : M unit :=
  fun s => (Val tt, {| engineOptions := engineOptions s; instance := o;
                       actions := actions s |}).

Definition readOptions : M manifestOptions := fun s => (Val (engineOptions s), s).

Definition writeOptions (o : manifestOptions) : M unit :=
  fun s => (Val tt, {| engineOptions := o; instance := instance s;
                       actions := actions s |}).

Definition emit (a : Action) : M unit :=
  fun s => (Val tt, {| engineOptions := engineOptions s; instance := instance s;
                       actions := actions s ++ [a] |}).

(** The pass a caller starts: nothing done yet. *)
Definition startPass (opts : manifestOptions) (o : ObjectInstance) : Pass :=
  {| engineOptions := opts; instance := o; actions := [] |}.

(** [r.nativeClient.Update(ctx, objectInstance)] *)
Definition nativeClient_Update (w : Collaborators) : M (option error) :=
  o ← readInstance;
  emit (ActUpdate o);;
  mret (client_Update w o).

(** [r.nativeClient.Status().Update(ctx, objectInstance)] *)
Definition nativeClient_StatusUpdate (w : Collaborators) : M (option error) :=
  o ← readInstance;
  emit (ActStatusUpdate o);;
  mret (client_StatusUpdate w o).

(** ** ObjectAccessor *)

Definition setStatusForObjectInstance (w : Collaborators)
    (status : CustomObjectStatus) : M (option error) :=
  objectInstance ← readInstance;
  match objectInstance with
  | Typed typedObject =>
      writeInstance (Typed (SetStatus status typedObject));;
      mret None
  | Generic typedObject =>
      let '(unstructStatus, err) := converter_StatusToUnstructured w status in
      match err with
      | Some e =>
          mret (Some (Errorf "unable to convert unstructured to addonStatus: " e))
      | None =>
          let '(obj, err) := SetNestedMap (Object typedObject) unstructStatus "status" in
          writeInstance (Generic {| Object := obj;
                                    UnstructuredMeta := UnstructuredMeta typedObject;
                                    Kind := Kind typedObject |});;
          match err with
          | Some e => mret (Some (Errorf "unable to set status in unstructured: " e))
          | None => mret None
          end
      end
  | Foreign _ => mret (Some (getTypeError (ObjectKeyFromObject objectInstance)))
  end.

Definition getStatusFromObjectInstance (w : Collaborators)
    (objectInstance : ObjectInstance) : CustomObjectStatus * option error :=
  match objectInstance with
  | Typed typedObject => (TypedStatus typedObject, None)
  | Generic typedObject =>
      let '(unstructStatus, _, err) := NestedMap (Object typedObject) "status" in
      match err with
      | Some e =>
          (CustomObjectStatus_zero,
           Some (Errorf "unable to get status from unstuctured: " e))
      | None =>
          let '(customStatus, err) := converter_StatusFromUnstructured w unstructStatus in
          match err with
          | Some e => (customStatus, Some e)
          | None => (customStatus, None)
          end
      end
  | Foreign _ =>
      (CustomObjectStatus_zero, Some (getTypeError (ObjectKeyFromObject objectInstance)))
  end.

Definition getSpecFromObjectInstance (w : Collaborators)
    (objectInstance : ObjectInstance) : CustomObjectSpec * option error :=
  match objectInstance with
  | Typed typedObject => (TypedSpec typedObject, None)
  | Generic typedObject =>
      let '(unstructSpec, _, err) := NestedMap (Object typedObject) "spec" in
      match err with
      | Some e =>
          (CustomObjectSpec_zero,
           Some (Errorf "unable to get spec from unstuctured: " e))
      | None =>
          let '(addonSpec, err) := converter_SpecFromUnstructured w unstructSpec in
          match err with
          | Some e => (addonSpec, Some e)
          | None => (addonSpec, None)
          end
      end
  | Foreign _ =>
      (CustomObjectSpec_zero, Some (getTypeError (ObjectKeyFromObject objectInstance)))
  end.

(** [toLower] stands for [strings.ToLower]. *)
Definition GetComponentName (toLower : string → string)
    (objectInstance : ObjectInstance) : string * option error :=
  match objectInstance with
  | Typed typedObject => (TypedComponentName typedObject, None)
  | Generic typedObject => (toLower (Kind typedObject), None)
  | Foreign _ => ("", Some (getTypeError (ObjectKeyFromObject objectInstance)))
  end.

(** ** Engine set-up *)

(** [Inject] stores the prototype and the manager's configuration before it
    looks at the object's type; [opts] is accepted and never applied. *)
Definition Inject (toLower : string → string) (mgrConfig : RestConfig)
    (customObject : ObjectInstance)
    (opts : list (manifestOptions → manifestOptions))
    (r : ManifestReconciler) : ManifestReconciler * option error :=
  let r := {| prototype := customObject; config := mgrConfig; options := options r |} in
  let '(_, err) := GetComponentName toLower customObject in
  match err with
  | Some _ => (r, Some (getTypeError (ObjectKeyFromObject customObject)))
  | None => (r, None)
  end.

Definition applyOptions (opts : list (manifestOptions → manifestOptions))
    (r : ManifestReconciler) : ManifestReconciler * option error :=
  let params := fold_left (fun params opt => opt params) opts manifestOptions_zero in
  ({| prototype := prototype r; config := config r; options := params |}, None).

(** ** InstallInfo builder and manifest client *)

(** [p.Object = content] through a pointer [p]: a nil [p] is a nil pointer
    dereference. *)
Definition storeObject (p : option Unstructured) (content : gmap string Value)
  : M (option Unstructured) :=
  match p with
  | None => panic "invalid memory address or nil pointer dereference"
  | Some u =>
      mret (Some {| Object := content; UnstructuredMeta := UnstructuredMeta u;
                    Kind := Kind u |})
  end.

Definition prepareInstallInfo (r : ManifestReconciler) (w : Collaborators)
    (objectInstance : ObjectInstance) (chartPath releaseName : string)
  : M (InstallInfo * option error) :=
  let build (unstructuredObj : option Unstructured) : M (InstallInfo * option error) :=
    mret ({| InstallChartInfo :=
               Some {| ChartInfoChartPath := chartPath;
                       ChartInfoReleaseName := releaseName |};
             RemoteConfig := Some (config r);
             BaseResource := unstructuredObj;
             CheckFn := Some (fun _ => (true, None));
             CheckReadyStates := true |}, None) in
  (* var unstructuredObj *unstructured.Unstructured *)
  let unstructuredObj : option Unstructured := None in
  match objectInstance with
  | Typed typedObject =>
      let '(content, err) := converter_ToUnstructured w typedObject in
      unstructuredObj ← storeObject unstructuredObj content;
      match err with
      | Some e => mret (InstallInfo_zero, Some e)
      | None => build unstructuredObj
      end
  | Generic typedObject =>
      let unstructuredObj := Some typedObject in
      build unstructuredObj
  | Foreign _ =>
      mret (InstallInfo_zero, Some (getTypeError (ObjectKeyFromObject objectInstance)))
  end.

Definition getManifestClient (r : ManifestReconciler) (w : Collaborators)
    (configString : string) : M (option Operations * option error) :=
  let '(config_, err) := strvals_ParseInto w configString in
  match err with
  | Some e => mret (None, Some e)
  | None =>
      emit (ActNewOperations config_);;
      mret (manifest_NewOperations w (config r) "nginx-release-name"
              (<["set" := ∅]> (<["flags" := config_]> ∅)))
  end.

(** ** State handlers *)

(** The sequence every handler uses to move the state machine:
    [status.State = state], store the status in the instance, and commit it
    with [Status().Update] unless storing failed. *)
Definition commitState (w : Collaborators) (state : string)
    (status : CustomObjectStatus) : M (option error) :=
  let status := withState state status in
  err ← setStatusForObjectInstance w status;
  match err with
  | Some e => mret (Some e)
  | None => nativeClient_StatusUpdate w
  end.

Definition HandleInitialState (r : ManifestReconciler) (w : Collaborators)
  : M (option error) :=
  objectInstance ← readInstance;
  let '(status, err) := getStatusFromObjectInstance w objectInstance in
  match err with
  | Some e => mret (Some e)
  | None =>
      let labels := GetLabels objectInstance in
      opts ← readOptions;
      if decide (0 < size (resourceLabels opts))%nat then
        (* labels[key] = value, for every pending label *)
        match labels with
        | None => panic "assignment to entry in nil map"
        | Some l =>
            let labels := Some (resourceLabels opts ∪ l) in
            writeInstance (SetLabels labels objectInstance);;
            writeOptions {| force := force opts; verify := verify opts;
                            resourceLabels := ∅ |};;
            nativeClient_Update w
        end
      else commitState w CustomStateProcessing status
  end.

Definition HandleProcessingState (r : ManifestReconciler) (w : Collaborators)
  : M (option error) :=
  objectInstance ← readInstance;
  let '(spec, err) := getSpecFromObjectInstance w objectInstance in
  match err with
  | Some e => mret (Some e)
  | None =>
  let '(status, err) := getStatusFromObjectInstance w objectInstance in
  match err with
  | Some e => mret (Some e)
  | None =>
  '(manifestClient, err) ← getManifestClient r w (ChartFlags spec);
  match err with
  | Some _ => commitState w CustomStateError status
  | None =>
  '(installInfo, err) ← prepareInstallInfo r w objectInstance
                          (ChartPath spec) (ReleaseName spec);
  match err with
  | Some e => mret (Some e)
  | None =>
  emit (ActInstall manifestClient installInfo);;
  let '(ready, err) := manifest_Install w manifestClient installInfo in
  match err with
  | Some _ => commitState w CustomStateError status
  | None =>
      if ready then commitState w CustomStateReady status
      else mret None
  end end end end end.

Definition HandleDeletingState (r : ManifestReconciler) (w : Collaborators)
  : M (option error) :=
  objectInstance ← readInstance;
  let '(spec, err) := getSpecFromObjectInstance w objectInstance in
  match err with
  | Some e => mret (Some e)
  | None =>
  let '(status, err) := getStatusFromObjectInstance w objectInstance in
  match err with
  | Some e => mret (Some e)
  | None =>
  '(manifestClient, err) ← getManifestClient r w (ChartFlags spec);
  match err with
  | Some _ => commitState w CustomStateError status
  | None =>
  '(installInfo, err) ← prepareInstallInfo r w objectInstance
                          (ChartPath spec) (ReleaseName spec);
  match err with
  | Some e => mret (Some e)
  | None =>
  emit (ActUninstall manifestClient installInfo);;
  let '(readyToBeDeleted, err) := manifest_Uninstall w manifestClient installInfo in
  match err with
  | Some _ => commitState w CustomStateError status
  | None =>
      if readyToBeDeleted then
        objectInstance ← readInstance;
        let '(objectInstance, removed) := RemoveFinalizer objectInstance deletionFinalizer in
        writeInstance objectInstance;;
        if removed then nativeClient_Update w else mret None
      else mret None
  end end end end end.

Definition HandleErrorState (r : ManifestReconciler) (w : Collaborators)
  : M (option error) :=
  objectInstance ← readInstance;
  let '(status, err) := getStatusFromObjectInstance w objectInstance in
  match err with
  | Some e => mret (Some e)
  | None => commitState w CustomStateProcessing status
  end.

Definition HandleReadyState (r : ManifestReconciler) (w : Collaborators)
  : M (option error) :=
  mret None.

(** ** The reconcile entry point *)

Definition Reconcile (r : ManifestReconciler) (w : Collaborators) (req : string)
  : M (Result * option error) :=
  (* objectInstance, ok := r.prototype.DeepCopyObject().(types.CustomObject) *)
  match prototype r with
  | Generic _ | Foreign _ => mret (Result_zero, Some (getTypeError req))
  | Typed _ =>
  match client_Get w req with
  | GetFailed e => mret (Result_zero, IgnoreNotFound e)
  | Found fetched =>
  writeInstance (Typed fetched);;
  objectInstance ← readInstance;
  let '(status, err) := getStatusFromObjectInstance w objectInstance in
  match err with
  | Some e => mret (Result_zero, Some e)
  | None =>
  if negb (Time_IsZero (GetDeletionTimestamp objectInstance))
     && negb (String.eqb (State status) CustomStateDeleting)
  then
    let status := withState CustomStateDeleting status in
    err ← setStatusForObjectInstance w status;
    match err with
    | Some e => mret (Result_zero, Some e)
    | None => err ← nativeClient_StatusUpdate w; mret (Result_zero, err)
    end
  else
    let '(objectInstance, added) := AddFinalizer objectInstance deletionFinalizer in
    writeInstance objectInstance;;
    if added then err ← nativeClient_Update w; mret (Result_zero, err)
    else if String.eqb (State status) "" then
      err ← HandleInitialState r w; mret (Result_zero, err)
    else if String.eqb (State status) CustomStateProcessing then
      err ← HandleProcessingState r w; mret (Result_zero, err)
    else if String.eqb (State status) CustomStateDeleting then
      err ← HandleDeletingState r w; mret (Result_zero, err)
    else if String.eqb (State status) CustomStateError then
      err ← HandleErrorState r w; mret (Result_zero, err)
    else if String.eqb (State status) CustomStateReady then
      err ← HandleReadyState r w; mret (Result_zero, err)
    else mret (Result_zero, None)
  end end end.

(** One pass of the engine [r] for the key [req]: the returned value (or the
    panic), and the pass state it ends in. *)
Definition runReconcile (r : ManifestReconciler) (w : Collaborators) (req : string)
  : Res (Result * option error) * Pass :=
  Reconcile r w req (startPass (options r) (prototype r)).

(** The engine as the next pass finds it. *)
Definition engineAfter (r : ManifestReconciler) (p : Pass) : ManifestReconciler :=
  {| prototype := prototype r; config := config r; options := engineOptions p |}.

(** ** Sample collaborators

    A cluster and a manifest library with fixed answers, to run the engine
    on concrete resources. *)

Definition sampleConditionToValue (c : Condition) : Value :=
  VMap (<["type" := VStr (CondType c)]>
        (<["lastTransitionTime" := VStr (LastTransitionTime c)]> ∅)).

Definition sampleConditionFromValue (v : Value) : option Condition :=
  match v with
  | VMap m =>
      match m !! "type", m !! "lastTransitionTime" with
      | Some (VStr t), Some (VStr l) =>
          Some {| CondType := t; LastTransitionTime := l |}
      | _, _ => None
      end
  | _ => None
  end.

(** The status block inside a converted object. *)
Definition sampleStatusToUnstructured (s : CustomObjectStatus)
  : gmap string Value * option error :=
  (<["state" := VStr (State s)]>
   (<["conditions" := VList (map sampleConditionToValue (Conditions s))]> ∅), None).

Definition sampleStatusFromUnstructured (m : option (gmap string Value))
  : CustomObjectStatus * option error :=
  match m with
  | None => (CustomObjectStatus_zero, None)
  | Some m =>
      match m !! "state", m !! "conditions" with
      | Some (VStr s), Some (VList l) =>
          match mapM sampleConditionFromValue l with
          | Some cs => ({| State := s; Conditions := cs |}, None)
          | None => (CustomObjectStatus_zero, Some (ExternalError "conditions"))
          end
      | Some (VStr s), None => ({| State := s; Conditions := [] |}, None)
      | None, _ => (CustomObjectStatus_zero, None)
      | _, _ => (CustomObjectStatus_zero, Some (ExternalError "status"))
      end
  end.

Definition sampleSpecFromUnstructured (m : option (gmap string Value))
  : CustomObjectSpec * option error :=
  let field (k : string) : string :=
    match m ≫= (.!! k) with
    | Some (VStr s) => s
    | _ => ""
    end in
  ({| ChartPath := field "chartPath"; ReleaseName := field "releaseName";
      ChartFlags := field "chartFlags" |}, None).

Definition sampleToUnstructured (o : CustomObject) : gmap string Value * option error :=
  (<["spec" := VMap (<["chartPath" := VStr (ChartPath (TypedSpec o))]>
                     (<["releaseName" := VStr (ReleaseName (TypedSpec o))]>
                      (<["chartFlags" := VStr (ChartFlags (TypedSpec o))]> ∅)))]>
   (<["status" := VMap (sampleStatusToUnstructured (TypedStatus o)).1]> ∅), None).

(** The converter's answer to [ToUnstructured(status)]: the status is handed
    over as a struct value, and the converter takes pointers only. *)
Definition sampleStatusByValue (s : CustomObjectStatus)
  : gmap string Value * option error :=
  (∅, Some (ExternalError
              "ToUnstructured requires a non-nil pointer to an object, got types.CustomObjectStatus")).

(** [stored] is what [Get] finds; [badFlags] is the one flag string that
    does not parse; the two installer calls answer [install] and
    [uninstall]; every write to the cluster succeeds. *)
Definition sampleWorld (stored : option CustomObject) (badFlags : string)
    (install uninstall : bool * option error) : Collaborators :=
  {| client_Get := fun key =>
       match stored with
       | Some o => Found o
       | None => GetFailed (NotFoundError key)
       end;
     client_Update := fun _ => None;
     client_StatusUpdate := fun _ => None;
     strvals_ParseInto := fun flags =>
       if String.eqb flags badFlags
       then (∅, Some (ExternalError "failed parsing key"))
       else (∅, None);
     manifest_NewOperations := fun _ releaseName flags =>
       (Some {| OperationsReleaseName := releaseName; OperationsFlags := flags |}, None);
     manifest_Install := fun _ _ => install;
     manifest_Uninstall := fun _ _ => uninstall;
     converter_ToUnstructured := sampleToUnstructured;
     converter_StatusToUnstructured := sampleStatusByValue;
     converter_StatusFromUnstructured := sampleStatusFromUnstructured;
     converter_SpecFromUnstructured := sampleSpecFromUnstructured |}.

Definition sampleMeta (deletion : option Z) (finalizers : list string) : ObjectMeta :=
  {| Name := "sample"; Namespace := "default"; DeletionTimestamp := deletion;
     Finalizers := finalizers; Labels := Some {["app" := "nginx"]} |}.

Definition sampleSpec : CustomObjectSpec :=
  {| ChartPath := "./charts/nginx"; ReleaseName := "nginx"; ChartFlags := "replicas=1" |}.

Definition sampleObject (deletion : option Z) (finalizers : list string)
    (state : string) : CustomObject :=
  {| TypedMeta := sampleMeta deletion finalizers;
     TypedSpec := sampleSpec;
     TypedStatus := {| State := state; Conditions := [] |};
     TypedComponentName := "sample-component" |}.

(** The same logical resource as an attribute tree. *)
Definition sampleGeneric (deletion : option Z) (finalizers : list string)
    (state : string) : Unstructured :=
  {| Object := (sampleToUnstructured (sampleObject deletion finalizers state)).1;
     UnstructuredMeta := sampleMeta deletion finalizers;
     Kind := "Sample" |}.

Definition sampleEngine (proto : ObjectInstance) : ManifestReconciler :=
  {| prototype := proto; config := {| Host := "https://cluster" |};
     options := manifestOptions_zero |}.

(** * Vocabulary of the properties *)

(** The key every sample request uses. *)
Definition sampleKey : string := "default/sample".

(** What a cluster write carries as [status.State], for a typed instance. *)
Definition typedState (o : ObjectInstance) : option string :=
  match o with
  | Typed t => Some (State (TypedStatus t))
  | _ => None
  end.

(** The calls into the manifest library. *)
Definition installerAction (a : Action) : bool :=
  match a with
  | ActNewOperations _ | ActInstall _ _ | ActUninstall _ _ => true
  | ActUpdate _ | ActStatusUpdate _ => false
  end.

Definition isInstall (a : Action) : bool :=
  match a with
  | ActInstall _ _ => true
  | _ => false
  end.

Section OnePass.
Variable r : ManifestReconciler.
Variable w : Collaborators.
Variable req : string.

(** The pass loaded the resource [o]: the prototype is a typed object and
    [Get] found [o] under the key. *)
Definition loaded (o : CustomObject) : Prop :=
  (∃ p, prototype r = Typed p) ∧ client_Get w req = Found o.

End OnePass.

Definition recognisedStates : list string :=
  [""; CustomStateProcessing; CustomStateDeleting; CustomStateError; CustomStateReady].

(** The pass called Uninstall and was told [removed = true] with a nil
    error. *)
Definition uninstallRemoved (w : Collaborators) (acts : list Action) : Prop :=
  ∃ ops info, ActUninstall ops info ∈ acts
              ∧ manifest_Uninstall w ops info = (true, None).



Definition processingGeneric : Unstructured :=
  sampleGeneric None [deletionFinalizer] CustomStateProcessing.


Definition sampleOperations : option Operations :=
  Some {| OperationsReleaseName := "nginx-release-name";
          OperationsFlags := <["set" := ∅]> (<["flags" := ∅]> ∅) |}.

Definition sampleInstallInfo (u : Unstructured) : InstallInfo :=
  {| InstallChartInfo :=
       Some {| ChartInfoChartPath := ChartPath sampleSpec;
               ChartInfoReleaseName := ReleaseName sampleSpec |};
     RemoteConfig := Some (config (sampleEngine (Generic u)));
     BaseResource := Some u;
     CheckFn := Some (fun _ => (true, None));
     CheckReadyStates := true |}.


(** A typed resource in Processing whose flags do not parse. *)
Definition processingTyped : CustomObject :=
  sampleObject None [deletionFinalizer] CustomStateProcessing.

Definition badFlagsWorld (stored : CustomObject) : Collaborators :=
  sampleWorld (Some stored) (ChartFlags sampleSpec) (true, None) (true, None).

(** C6 as it is stated: when the chart flags do not parse, the pass returns
    that error and writes no status. *)
Definition flagParseFailureIsFatal (r : ManifestReconciler) (w : Collaborators)
    (req : string) (o : CustomObject) : Prop :=
  ∀ cfg e,
    strvals_ParseInto w (ChartFlags (TypedSpec o)) = (cfg, Some e) →
    let out := runReconcile r w req in
    out.1 = Val (Result_zero, Some e)
    ∧ Forall (λ a, ∀ x, a ≠ ActStatusUpdate x) (actions out.2)
    ∧ typedState (instance out.2) = Some (State (TypedStatus o)).

(** What a cluster write of a pass carries, against the loaded resource [o]:
    the deletion timestamp of [o], and state Deleting or Error. *)
Definition writesDeletingOrError (o : CustomObject) (a : Action) : Prop :=
  match a with
  | ActUpdate x | ActStatusUpdate x =>
      ∃ t, x = Typed t
           ∧ DeletionTimestamp (TypedMeta t) = DeletionTimestamp (TypedMeta o)
           ∧ (State (TypedStatus t) = CustomStateDeleting
              ∨ State (TypedStatus t) = CustomStateError)
  | _ => True
  end.

(** The collaborators of one pass, with [Get] answering from the store. *)
Definition withStore (stored : option CustomObject) (w : Collaborators) : Collaborators :=
  {| client_Get := fun key =>
       match stored with
       | Some o => Found o
       | None => GetFailed (NotFoundError key)
       end;
     client_Update := client_Update w;
     client_StatusUpdate := client_StatusUpdate w;
     strvals_ParseInto := strvals_ParseInto w;
     manifest_NewOperations := manifest_NewOperations w;
     manifest_Install := manifest_Install w;
     manifest_Uninstall := manifest_Uninstall w;
     converter_ToUnstructured := converter_ToUnstructured w;
     converter_StatusToUnstructured := converter_StatusToUnstructured w;
     converter_StatusFromUnstructured := converter_StatusFromUnstructured w;
     converter_SpecFromUnstructured := converter_SpecFromUnstructured w |}.

(** Modelled from the spec: the cluster's side of the resource-access
    interface is not part of the sources.  A successful status update
    replaces the stored status; a successful update replaces metadata and
    spec, and the status too unless the resource has a status subresource;
    a resource with deletion intent is destroyed once its last finalizer is
    gone.  A write the client reports as failed changes nothing. *)
Definition persist (statusSubresource : bool) (w : Collaborators)
    (stored : option CustomObject) (a : Action) : option CustomObject :=
  match stored, a with
  | Some s, ActStatusUpdate (Typed x) =>
      match client_StatusUpdate w (Typed x) with
      | None => Some (SetStatus (TypedStatus x) s)
      | Some _ => stored
      end
  | Some s, ActUpdate (Typed x) =>
      match client_Update w (Typed x) with
      | None =>
          let s' := if statusSubresource then SetStatus (TypedStatus s) x else x in
          if negb (Time_IsZero (DeletionTimestamp (TypedMeta s')))
             && bool_decide (Finalizers (TypedMeta s') = [])
          then None else Some s'
      | Some _ => stored
      end
  | _, _ => stored
  end.

(** Successive passes for one key.  Pass [i] meets the collaborators
    [ws !! i]; the engine keeps its options from pass to pass and the
    cluster keeps the resource.  The result is the action log of every pass
    and the resource finally stored. *)
Fixpoint runPasses (statusSubresource : bool) (r : ManifestReconciler)
    (req : string) (ws : list Collaborators) (stored : option CustomObject)
  : list (list Action) * option CustomObject :=
  match ws with
  | [] => ([], stored)
  | w :: ws =>
      let w := withStore stored w in
      let out := runReconcile r w req in
      let stored := fold_left (persist statusSubresource w) (actions out.2) stored in
      let rest := runPasses statusSubresource (engineAfter r out.2) req ws stored in
      (actions out.2 :: rest.1, rest.2)
  end.

Definition deletingOrError (o : CustomObject) (stored : option CustomObject) : Prop :=
  match stored with
  | None => True
  | Some s =>
      DeletionTimestamp (TypedMeta s) = DeletionTimestamp (TypedMeta o)
      ∧ (State (TypedStatus s) = CustomStateDeleting
         ∨ State (TypedStatus s) = CustomStateError)
  end.

(** A loaded resource in Deleting, with deletion intent and the finalizer. *)
Definition deletingTyped : CustomObject :=
  sampleObject (Some 1) [deletionFinalizer] CustomStateDeleting.

(** C4 as it is stated: a pass on a resource in Deleting commits no state
    other than Deleting. *)
Definition staysDeleting (r : ManifestReconciler) (w : Collaborators)
    (req : string) (o : CustomObject) : Prop :=
  State (TypedStatus o) = CustomStateDeleting →
  ∀ x, ActStatusUpdate x ∈ actions (runReconcile r w req).2 →
       typedState x = Some CustomStateDeleting.

(** C9 as it is stated: a second pass from the same persisted value, with
    the engine as the first pass left it, repeats the first. *)
Definition replayable (r : ManifestReconciler) (w : Collaborators) (req : string) : Prop :=
  let first := runReconcile r w req in
  let second := runReconcile (engineAfter r first.2) w req in
  first.1 = second.1 ∧ actions first.2 = actions second.2
  ∧ instance first.2 = instance second.2.

(** An engine configured with one resource label, and a fresh resource that
    already carries the finalizer. *)
Definition labellingEngine (proto : ObjectInstance) : ManifestReconciler :=
  {| prototype := proto; config := {| Host := "https://cluster" |};
     options := {| force := false; verify := false;
                   resourceLabels := {["managed-by" := "declarative"]} |} |}.

Definition freshTyped : CustomObject := sampleObject None [deletionFinalizer] "".

(** The states a pass committed, in order. *)
Definition committedStates (w : Collaborators) (acts : list Action) : list string :=
  omap (λ a, match a with
             | ActStatusUpdate x => Some (State (getStatusFromObjectInstance w x).1)
             | _ => None
             end) acts.

Definition quietWorld (stored : CustomObject) : Collaborators :=
  sampleWorld (Some stored) "" (true, None) (true, None).

Definition unguardedTyped : CustomObject := sampleObject None [] "".

(** Deletion intent arrives while the resource is in Processing. *)
Definition condemnedTyped : CustomObject :=
  sampleObject (Some 1) [deletionFinalizer] CustomStateProcessing.

Definition deletingGeneric : Unstructured :=
  sampleGeneric (Some 1) [deletionFinalizer] CustomStateDeleting.

Definition pausedTyped : CustomObject :=
  sampleObject None [deletionFinalizer] "Paused".

(** * Package [util] *)

(** ** Path joining *)

(** [strings.Contains(s, string(c))] for a one-byte needle. *)
Fixpoint containsByte (c : Ascii.ascii) (s : string) : bool :=
  match s with
  | EmptyString => false
  | String d s => Ascii.eqb d c || containsByte c s
  end.

(** [strings.ReplaceAll(s, string(old), string(new))] for one-byte
    arguments. *)
Fixpoint replaceByte (old new : Ascii.ascii) (s : string) : string :=
  match s with
  | EmptyString => EmptyString
  | String d s => String (if Ascii.eqb d old then new else d) (replaceByte old new s)
  end.

(** The pieces of [s] between the bytes that satisfy [sep]; with
    [sep := Ascii.eqb c] this is [strings.Split(s, string(c))], which returns
    one piece more than there are separators. *)
Fixpoint splitBy (sep : Ascii.ascii → bool) (s : string) : list string :=
  match s with
  | EmptyString => [EmptyString]
  | String d s =>
      if sep d then EmptyString :: splitBy sep s
      else match splitBy sep s with
           | part :: parts => String d part :: parts
           | [] => [String d EmptyString]
           end
  end.

(** [path.IsAbs] *)
Definition path_IsAbs (p : string) : bool :=
  match p with
  | String d _ => Ascii.eqb d "/"%char
  | EmptyString => false
  end.

(** The functions of [path/filepath] the join relies on. *)
Record FilePath : Type := {
  filepath_Join : list string → string;
  filepath_Clean : string → string;
  filepath_ToSlash : string → string
}.

(** [errors.New] *)
Definition errors_New (msg : string) : error := ExternalError msg.

Definition CleanFilePathJoin (fp : FilePath) (root destDir : string)
  : string * option error :=
  if containsByte ":"%char destDir then
    ("", Some (errors_New "path contains ':', which is illegal"))
  else
    let destDir := replaceByte "\"%char "/"%char destDir in
    if existsb (String.eqb "..") (splitBy (Ascii.eqb "/"%char) destDir) then
      ("", Some (errors_New "path contains '..', which is illegal"))
    else if path_IsAbs destDir then
      ("", Some (errors_New "path is absolute, which is illegal"))
    else
      let newPath := filepath_Join fp [root; filepath_Clean fp destDir] in
      (filepath_ToSlash fp newPath, None).

(** Either path separator, as the join treats them. *)
Definition isSeparator (c : Ascii.ascii) : bool :=
  Ascii.eqb c "/"%char || Ascii.eqb c "\"%char.

(** ** Resource labels *)

(** [types.LabelNotFoundError], as [GetResourceLabel] fills it. *)
Record LabelNotFoundError : Type := {
  ErrResource : ObjectInstance;
  ErrLabelName : string
}.

(** [v, ok := m[k]] on a map that may be nil. *)
Definition mapIndex (m : option (gmap string string)) (k : string) : string * bool :=
  match m ≫= (.!! k) with
  | Some v => (v, true)
  | None => ("", false)
  end.

Definition GetResourceLabel (resource : ObjectInstance) (labelName : string)
  : string * option LabelNotFoundError :=
  let labels := GetLabels resource in
  let '(label, ok) := mapIndex labels labelName in
  if negb ok then
    ("", Some {| ErrResource := resource; ErrLabelName := label |})
  else (label, None).

(** ** Hashing *)

(** FNV-1a, 32 bit ([fnv.New32a], [Write], [Sum32]). *)
Definition fnv_offset32 : Z := 2166136261.
Definition fnv_prime32 : Z := 16777619.

Definition byteZ (c : Ascii.ascii) : Z := Z.of_N (Ascii.N_of_ascii c).

Definition fnv32a_step (hash : Z) (c : Ascii.ascii) : Z :=
  (Z.lxor hash (byteZ c) * fnv_prime32) mod 2 ^ 32.

Fixpoint fnv32a_write (hash : Z) (data : string) : Z :=
  match data with
  | EmptyString => hash
  | String c data => fnv32a_write (fnv32a_step hash c) data
  end.

(** [json_Marshal] stands for [json.Marshal] on the value's type. *)
Definition CalculateHash {A : Type} (json_Marshal : A → string * option error)
    (interfaceToBeHashed : A) : Z * option error :=
  let '(data, err) := json_Marshal interfaceToBeHashed in
  match err with
  | Some e => (0, Some e)
  | None => (fnv32a_write fnv_offset32 data, None)
  end.

(** ** Filtering the resources that exist *)

(** [resource.Info], by what the filter reads of it. *)
Record ResourceInfo : Type := {
  InfoName : string;
  InfoNamespace : string;
  InfoKind : string
}.

(** [types.MultiError] *)
Record MultiError : Type := { Errs : list error }.

(** [apierrors.IsNotFound] *)
Definition IsNotFound (err : error) : bool :=
  match err with
  | NotFoundError _ => true
  | _ => false
  end.

(** [errors.Wrapf(err, "could not get information about the resource %s / %s", ...)] *)
Definition wrapGetError (info : ResourceInfo) (err : error) : error :=
  Errorf ("could not get information about the resource "
          ++ InfoName info ++ " / " ++ InfoNamespace info) err.

(** One turn of the filter's loop.  [helper_Get] stands for
    [resource.NewHelper(...).Get] on the cluster; only its error is looked
    at. *)
Definition filterStep (helper_Get : ResourceInfo → option error)
    (acc : list ResourceInfo * list error) (info : ResourceInfo)
  : list ResourceInfo * list error :=
  let '(existingResources, errs) := acc in
  match helper_Get info with
  | Some err =>
      if IsNotFound err then (existingResources, errs)
      else (existingResources, (errs ++ [wrapGetError info err])%list)
  | None => ((existingResources ++ [info])%list, errs)
  end.

Definition FilterExistingResources (helper_Get : ResourceInfo → option error)
    (resources : list ResourceInfo) : list ResourceInfo * option MultiError :=
  let '(existingResources, errs) :=
    fold_left (filterStep helper_Get) resources ([], []) in
  if decide (0 < length errs)%nat
  then (existingResources, Some {| Errs := errs |})
  else (existingResources, None).

(** ** Manifest parsing and transformation *)

(** [types.ManifestResources]: the decoded objects, by their attribute
    trees, and the documents kept as raw bytes. *)
Record ManifestResources : Type := {
  Items : list (gmap string Value);
  Blobs : list string
}.

(** What the parser calls: the YAML document reader, as the documents it
    yields and the error that ends them ([None] is [io.EOF]);
    [bytes.TrimSpace]; and [yaml.Unmarshal] into a fresh object, as the
    object it leaves and its error. *)
Record YamlLib : Type := {
  yaml_documents : string → list string * option error;
  bytes_TrimSpace : string → string;
  yaml_Unmarshal : string → gmap string Value * option error
}.

(** [bytes.TrimPrefix] *)
Definition bytes_TrimPrefix (s prefix : string) : string :=
  if String.prefix prefix s
  then String.substring (String.length prefix) (String.length s - String.length prefix) s
  else s.

Definition newline : string := String "010"%char EmptyString.

(** One turn of the parser's loop on a document that was read. *)
Definition parseDocument (y : YamlLib) (objects : ManifestResources)
    (rawBytes : string) : ManifestResources :=
  let rawBytes := bytes_TrimSpace y rawBytes in
  let '(unstructuredObj, err) := yaml_Unmarshal y rawBytes in
  let objects :=
    match err with
    | Some _ =>
        let blob := bytes_TrimPrefix rawBytes ("---" ++ newline) ++ newline in
        {| Items := Items objects; Blobs := (Blobs objects ++ [blob])%list |}
    | None => objects
    end in
  if (String.length rawBytes =? 0)%nat || String.eqb rawBytes "null"
     || (size unstructuredObj =? 0)%nat
  then objects
  else {| Items := (Items objects ++ [unstructuredObj])%list; Blobs := Blobs objects |}.

Definition ParseManifestStringToObjects (y : YamlLib) (manifest : string)
  : option ManifestResources * option error :=
  let objects := {| Items := []; Blobs := [] |} in
  let '(documents, ending) := yaml_documents y manifest in
  let objects := fold_left (parseDocument y) documents objects in
  match ending with
  | None => (Some objects, None)
  | Some err => (None, Some (Errorf "invalid YAML doc: " err))
  end.

(** [types.ObjectTransform]: it works on the shared resources in place and
    reports an error. *)
Definition ObjectTransform : Type :=
  ObjectInstance → ManifestResources → ManifestResources * option error.

Fixpoint applyTransforms (object : ObjectInstance) (transforms : list ObjectTransform)
    (objects : ManifestResources) : option ManifestResources * option error :=
  match transforms with
  | [] => (Some objects, None)
  | transform :: transforms =>
      let '(objects, err) := transform object objects in
      match err with
      | Some e => (None, Some e)
      | None => applyTransforms object transforms objects
      end
  end.

Definition Transform (y : YamlLib) (manifestStringified : string)
    (object : ObjectInstance) (transforms : list ObjectTransform)
  : option ManifestResources * option error :=
  let '(objects, err) := ParseManifestStringToObjects y manifestStringified in
  match err, objects with
  | Some e, _ => (None, Some e)
  | None, Some objects => applyTransforms object transforms objects
  | None, None => (None, None)
  end.

(** The resource was found: [Get] returned no error. *)
Definition getSucceeded (helper_Get : ResourceInfo → option error)
    (info : ResourceInfo) : bool :=
  match helper_Get info with
  | None => true
  | Some _ => false
  end.

(** The error the filter keeps for a resource, if any. *)
Definition getFailure (helper_Get : ResourceInfo → option error)
    (info : ResourceInfo) : option error :=
  match helper_Get info with
  | Some err => if IsNotFound err then None else Some (wrapGetError info err)
  | None => None
  end.

(** What one document adds to the items and to the blobs. *)
Definition documentItem (y : YamlLib) (document : string) : option (gmap string Value) :=
  let rawBytes := bytes_TrimSpace y document in
  let unstructuredObj := (yaml_Unmarshal y rawBytes).1 in
  if (String.length rawBytes =? 0)%nat || String.eqb rawBytes "null"
     || (size unstructuredObj =? 0)%nat
  then None else Some unstructuredObj.

Definition documentBlob (y : YamlLib) (document : string) : option string :=
  let rawBytes := bytes_TrimSpace y document in
  match (yaml_Unmarshal y rawBytes).2 with
  | Some _ => Some (bytes_TrimPrefix rawBytes ("---" ++ newline) ++ newline)
  | None => None
  end.

(** ** More sample resources *)

Definition errorTyped : CustomObject :=
  sampleObject None [deletionFinalizer] CustomStateError.

Definition readyTyped : CustomObject :=
  sampleObject None [deletionFinalizer] CustomStateReady.

(** A fresh resource as the cluster returns it when it has no labels: the
    label map is nil. *)
Definition unlabelledTyped : CustomObject :=
  {| TypedMeta := {| Name := "sample"; Namespace := "default";
                     DeletionTimestamp := None;
                     Finalizers := [deletionFinalizer]; Labels := None |};
     TypedSpec := sampleSpec;
     TypedStatus := CustomObjectStatus_zero;
     TypedComponentName := "sample-component" |}.

(** A resource in Deleting that lost its finalizer. *)
Definition unguardedDeleting : CustomObject :=
  sampleObject (Some 1) [] CustomStateDeleting.

(** A cluster on which the key is gone. *)
Definition emptyWorld : Collaborators :=
  sampleWorld None "" (true, None) (true, None).

(** A manifest library that is still at work on both calls. *)
Definition busyWorld : Collaborators :=
  sampleWorld None "" (false, None) (false, None).

Definition failingUninstallWorld : Collaborators :=
  sampleWorld None "" (true, None)
    (false, Some (ExternalError "chart uninstall failed")).

(** A marshaller for values that are their own JSON text. *)
Definition rawMarshal (text : string) : string * option error := (text, None).

(** ** The converter on a status value *)

(** The collaborators whose converter rejects every status it is handed by
    value, as the unstructured converter does: it converts pointers only. *)
Definition rejectsStatusValues (w : Collaborators) : Prop :=
  ∀ status, (converter_StatusToUnstructured w status).2 ≠ None.

(** The action is no status update. *)
Definition notStatusUpdate (a : Action) : Prop :=
  match a with
  | ActStatusUpdate _ => False
  | _ => True
  end.


(** A resource in Deleting that has no deletion timestamp. *)
Definition driftedTyped : CustomObject :=
  sampleObject None [deletionFinalizer] CustomStateDeleting.

(** C8 as it is stated: the pass on the typed prototype and the pass on the
    generic prototype commit the same sequence of states. *)
Definition sameTransitions (w : Collaborators) (req : string)
    (typed generic : ManifestReconciler) : Prop :=
  committedStates w (actions (runReconcile typed w req).2)
  = committedStates w (actions (runReconcile generic w req).2).

Definition freshGeneric : Unstructured := sampleGeneric None [deletionFinalizer] "".

(** * Properties of the passes *)

(** Unfold one pass down to the case analyses of the source. *)
Ltac unfold_pass :=
  cbv [runReconcile Reconcile HandleInitialState HandleProcessingState
       HandleDeletingState HandleErrorState HandleReadyState commitState
       setStatusForObjectInstance getStatusFromObjectInstance
       getSpecFromObjectInstance getManifestClient prepareInstallInfo
       storeObject nativeClient_Update nativeClient_StatusUpdate
       readInstance writeInstance readOptions writeOptions emit panic
       startPass mbind mret M_bind M_ret
       engineOptions instance actions] in *.

(** ** Deletion preempts dispatch *)

(** C2. A loaded resource with deletion intent whose state is not Deleting:
    the pass stores Deleting, commits it with one status update and returns
    the result of that commit.  Nothing else is done: no handler runs, so the
    processing path can reach neither Ready nor Error in this pass. *)
Theorem deletion_preempts_dispatch r w req o :
  loaded r w req o →
  Time_IsZero (DeletionTimestamp (TypedMeta o)) = false →
  State (TypedStatus o) ≠ CustomStateDeleting →
  let committed := Typed (SetStatus (withState CustomStateDeleting (TypedStatus o)) o) in
  runReconcile r w req =
    (Val (Result_zero, client_StatusUpdate w committed),
     {| engineOptions := options r; instance := committed;
        actions := [ActStatusUpdate committed] |}).
Proof.
  intros [[p Hp] Hg] Hdel Hstate committed. unfold_pass.
  rewrite Hp, Hg. cbv [GetDeletionTimestamp GetMeta]. rewrite Hdel.
  destruct (String.eqb_spec (State (TypedStatus o)) CustomStateDeleting) as [E|_];
    [contradiction|].
  reflexivity.
Qed.

(** ** The finalizer gate *)

(** C1. A loaded resource without the deletion finalizer and without
    deletion intent: the pass appends the finalizer, writes the resource
    with one [Update] and does nothing else, so no Install call is made in
    that pass.  And in every pass of a loaded resource that calls into the
    manifest library (client creation, Install or Uninstall), the resource
    already carried the finalizer when it was loaded. *)
Theorem finalizer_before_install r w req o :
  loaded r w req o →
  let out := runReconcile r w req in
  let gated := SetFinalizers (Finalizers (TypedMeta o) ++ [deletionFinalizer]) (Typed o) in
  (Time_IsZero (DeletionTimestamp (TypedMeta o)) = true →
   hasDeletionFinalizer (Typed o) = false →
   out = (Val (Result_zero, client_Update w gated),
          {| engineOptions := options r; instance := gated;
             actions := [ActUpdate gated] |})
   ∧ Forall (λ a, isInstall a = false) (actions out.2))
  ∧ (Exists (λ a, installerAction a = true) (actions out.2) →
     hasDeletionFinalizer (Typed o) = true).
Proof.
  intros [[p Hp] Hg] out gated. subst out gated.
  unfold_pass. rewrite Hp, Hg.
  cbv [AddFinalizer hasDeletionFinalizer GetDeletionTimestamp GetFinalizers GetMeta].
  split.
  - intros Hdel Hfin. rewrite Hdel, Hfin. cbn. split; [reflexivity|].
    repeat constructor.
  - destruct (containsFinalizer _ deletionFinalizer) eqn:Hfin; [reflexivity|].
    destruct (negb _ && negb _); cbn; intros Hex;
      apply Exists_cons in Hex as [Hex|Hex]; solve [discriminate | inversion Hex].
Qed.

(** ** Dispatch on an unrecognised state *)

(** C10. A loaded resource whose state is none of the five recognised
    strings, with the finalizer present and no deletion intent: the pass
    falls through the dispatch.  No call leaves the engine, the instance is
    as it was loaded, and the pass returns the zero result (no requeue) with
    a nil error. *)
Theorem unrecognised_state_is_noop r w req o :
  loaded r w req o →
  State (TypedStatus o) ∉ recognisedStates →
  hasDeletionFinalizer (Typed o) = true →
  Time_IsZero (DeletionTimestamp (TypedMeta o)) = true →
  runReconcile r w req =
    (Val ({| Requeue := false; RequeueAfter := 0 |}, None),
     {| engineOptions := options r; instance := Typed o; actions := [] |}).
Proof.
  intros [[p Hp] Hg] Hstate Hfin Hdel.
  unfold recognisedStates in Hstate.
  repeat (apply not_elem_of_cons in Hstate as [? Hstate]).
  unfold_pass. rewrite Hp, Hg.
  cbv [AddFinalizer hasDeletionFinalizer GetDeletionTimestamp GetFinalizers GetMeta] in *.
  rewrite Hdel, Hfin. cbn [negb andb].
  repeat match goal with
         | |- context [String.eqb ?a ?b] =>
             destruct (String.eqb_spec a b); [contradiction|]
         end.
  reflexivity.
Qed.

(** ** Release of the finalizer *)

Lemma containsFinalizer_filter f finalizer :
  containsFinalizer (filter (λ e, e ≠ finalizer) f) finalizer = false.
Proof.
  unfold containsFinalizer. induction f as [|x f IH]; [reflexivity|].
  rewrite filter_cons. destruct (decide (x ≠ finalizer)) as [Hne|Heq]; [|exact IH].
  cbn [existsb]. rewrite IH.
  destruct (String.eqb_spec finalizer x); [congruence|reflexivity].
Qed.

Lemma hasDeletionFinalizer_RemoveFinalizer o :
  hasDeletionFinalizer (RemoveFinalizer o deletionFinalizer).1 = false.
Proof.
  destruct o; cbv [RemoveFinalizer fst hasDeletionFinalizer GetFinalizers
                   SetFinalizers GetMeta SetMeta Finalizers];
    apply containsFinalizer_filter.
Qed.

(** Membership of an action in an explicit log, by cases. *)
Ltac log_cases H :=
  repeat (apply elem_of_cons in H as [H|H]; [try discriminate H|]);
  try (apply elem_of_nil in H; contradiction).

Ltac unfold_finalizer :=
  unfold hasDeletionFinalizer, GetFinalizers in *;
  cbn [GetMeta SetMeta SetStatus TypedMeta UnstructuredMeta Finalizers] in *.

Ltac solve_release :=
  unfold_finalizer;
  split;
  [ intros Hgone;
    first [ congruence
          | eexists _, _; split; [repeat constructor | eassumption] ]
  | intros (ops & info & Hin & Hres);
    first [ apply containsFinalizer_filter
          | exfalso; log_cases Hin; simplify_eq; congruence ] ].

Lemma HandleDeletingState_finalizer r w opts obj :
  hasDeletionFinalizer obj = true →
  let out := HandleDeletingState r w (startPass opts obj) in
  hasDeletionFinalizer (instance out.2) = false ↔ uninstallRemoved w (actions out.2).
Proof.
  intros Hfin out. subst out. unfold uninstallRemoved.
  unfold_pass.
  repeat (case_match; simplify_eq/=); solve_release.
Qed.

Lemma Reconcile_finalizer r w req o :
  loaded r w req o →
  hasDeletionFinalizer (Typed o) = true →
  let out := runReconcile r w req in
  hasDeletionFinalizer (instance out.2) = false ↔ uninstallRemoved w (actions out.2).
Proof.
  intros [[p Hp] Hg] Hfin out. subst out. unfold uninstallRemoved.
  unfold_pass. rewrite Hp, Hg.
  cbv [AddFinalizer]. unfold hasDeletionFinalizer in Hfin. rewrite Hfin.
  repeat (case_match; simplify_eq/=); solve_release.
Qed.



(** ** Installer failures in the processing handler *)




(** ** Malformed chart flags *)

(** C6, as amended.  A loaded resource that carries the finalizer and is in
    Processing (with no deletion intent) or in Deleting, and whose chart
    flags do not parse: the pass is not fatal.  It sets the state to Error,
    commits that status with one status update and returns the result of
    the commit; the parse error is not returned to the caller. *)
Theorem flag_parse_failure_commits_error r w req o cfg e :
  loaded r w req o →
  hasDeletionFinalizer (Typed o) = true →
  (State (TypedStatus o) = CustomStateProcessing
   ∧ Time_IsZero (DeletionTimestamp (TypedMeta o)) = true)
  ∨ State (TypedStatus o) = CustomStateDeleting →
  strvals_ParseInto w (ChartFlags (TypedSpec o)) = (cfg, Some e) →
  let committed :=
    Typed (SetStatus {| State := CustomStateError;
                        Conditions := Conditions (TypedStatus o) |} o) in
  runReconcile r w req =
    (Val (Result_zero, client_StatusUpdate w committed),
     {| engineOptions := options r; instance := committed;
        actions := [ActStatusUpdate committed] |}).
Proof.
  intros [[p Hp] Hg] Hfin Hstate Hparse committed. subst committed.
  unfold_pass. rewrite Hp, Hg.
  cbv [AddFinalizer GetDeletionTimestamp GetMeta].
  unfold hasDeletionFinalizer in Hfin. rewrite Hfin.
  destruct Hstate as [[Hst Hdel]|Hst]; rewrite Hst; [rewrite Hdel|];
    cbn; rewrite ?andb_false_r; rewrite Hparse; reflexivity.
Qed.

Lemma flag_parse_failure_commits_error_witness :
  let committed := Typed (sampleObject None [deletionFinalizer] CustomStateError) in
  runReconcile (sampleEngine (Typed processingTyped))
    (badFlagsWorld processingTyped) sampleKey =
    (Val (Result_zero, None),
     {| engineOptions := manifestOptions_zero; instance := committed;
        actions := [ActStatusUpdate committed] |}).
Proof.
  apply (flag_parse_failure_commits_error
           (sampleEngine (Typed processingTyped)) (badFlagsWorld processingTyped)
           sampleKey processingTyped ∅ (ExternalError "failed parsing key")).
  - split; [by eexists|reflexivity].
  - reflexivity.
  - left. split; reflexivity.
  - reflexivity.
Defined.

(** Counterexample to C6 as stated: the resource in Processing whose flags
    do not parse ends the pass with a nil error and a committed Error
    state. *)
Lemma flag_parse_failure_is_not_fatal :
  ¬ flagParseFailureIsFatal (sampleEngine (Typed processingTyped))
      (badFlagsWorld processingTyped) sampleKey processingTyped.
Proof.
  intros Hclaim.
  destruct (Hclaim ∅ (ExternalError "failed parsing key") eq_refl) as [Hres _].
  vm_compute in Hres. discriminate Hres.
Qed.

(** ** Leaving the Deleting state *)

Lemma Reconcile_deleting_writes r w req o :
  loaded r w req o →
  Time_IsZero (DeletionTimestamp (TypedMeta o)) = false →
  State (TypedStatus o) = CustomStateDeleting
  ∨ State (TypedStatus o) = CustomStateError →
  Forall (writesDeletingOrError o) (actions (runReconcile r w req).2).
Proof.
  intros [[p Hp] Hg] Hdel Hstate.
  unfold_pass. rewrite Hp, Hg.
  cbv [AddFinalizer GetDeletionTimestamp GetMeta]. rewrite Hdel.
  destruct Hstate as [Hst|Hst]; rewrite Hst; cbn;
    repeat (case_match; simplify_eq/=);
    repeat (apply Forall_cons; split); try apply Forall_nil;
    cbn; first [exact I | eexists; (split; [reflexivity|]); cbn; auto].
Qed.

(** ** A cluster that stores the resource between passes *)

Lemma persist_deletingOrError sub w o stored a :
  deletingOrError o stored →
  writesDeletingOrError o a →
  deletingOrError o (persist sub w stored a).
Proof.
  intros Hs Ha. destruct stored as [s|]; [|by destruct a].
  destruct a as [x|x| | |]; cbn in *; try assumption;
    destruct Ha as (t & -> & Hdel & Hst); repeat (case_match; simplify_eq/=);
    cbn; intuition.
Qed.

Lemma fold_persist_deletingOrError sub w o acts stored :
  deletingOrError o stored →
  Forall (writesDeletingOrError o) acts →
  deletingOrError o (fold_left (persist sub w) acts stored).
Proof.
  intros Hs Hacts. revert stored Hs.
  induction Hacts as [|a acts Ha _ IH]; intros stored Hs; [exact Hs|].
  cbn. apply IH. by apply persist_deletingOrError.
Qed.

Lemma writesDeletingOrError_rebase o s a :
  DeletionTimestamp (TypedMeta s) = DeletionTimestamp (TypedMeta o) →
  writesDeletingOrError s a → writesDeletingOrError o a.
Proof.
  intros Heq. destruct a; cbn; try done;
    intros (t & -> & Hdel & Hst); exists t; (split; [done|]); split; congruence.
Qed.

Lemma runPasses_deleting sub o req ws :
  Time_IsZero (DeletionTimestamp (TypedMeta o)) = false →
  ∀ r stored,
    (∃ p, prototype r = Typed p) →
    deletingOrError o stored →
    let run := runPasses sub r req ws stored in
    Forall (Forall (writesDeletingOrError o)) run.1 ∧ deletingOrError o run.2.
Proof.
  intros Hdel. induction ws as [|w ws IH]; intros r stored Hp Hs; cbn.
  - split; [constructor|exact Hs].
  - assert (Hlog : Forall (writesDeletingOrError o)
                     (actions (runReconcile r (withStore stored w) req).2)).
    { destruct stored as [s|].
      - destruct Hs as [Hds Hst].
        eapply Forall_impl;
          [|intros a; apply (writesDeletingOrError_rebase o s a Hds)].
        apply Reconcile_deleting_writes; [by split|congruence|exact Hst].
      - destruct Hp as [p Hp]. unfold_pass. rewrite Hp. cbn. constructor. }
    destruct (IH (engineAfter r (runReconcile r (withStore stored w) req).2)
                (fold_left (persist sub (withStore stored w))
                   (actions (runReconcile r (withStore stored w) req).2) stored))
      as [Hrest Hfinal].
    + exact Hp.
    + by apply fold_persist_deletingOrError.
    + split; [by constructor|exact Hfinal].
Qed.

(** C4, as amended.  Once a resource with deletion intent has state
    Deleting, every later pass writes only state Deleting or state Error to
    the cluster, whatever the collaborators answer in each pass, so the
    stored resource is never in the Empty, Processing or Ready state again,
    until it is removed; and a pass that loads the resource in Error, the
    deletion intent still set, commits Deleting again with one status update
    and does nothing else. *)
Theorem deleting_leaves_only_to_error sub r req ws o :
  (∃ p, prototype r = Typed p) →
  Time_IsZero (DeletionTimestamp (TypedMeta o)) = false →
  State (TypedStatus o) = CustomStateDeleting →
  let run := runPasses sub r req ws (Some o) in
  Forall (Forall (writesDeletingOrError o)) run.1
  ∧ deletingOrError o run.2
  ∧ ∀ w s,
      client_Get w req = Found s →
      DeletionTimestamp (TypedMeta s) = DeletionTimestamp (TypedMeta o) →
      State (TypedStatus s) = CustomStateError →
      let back :=
        Typed (SetStatus {| State := CustomStateDeleting;
                            Conditions := Conditions (TypedStatus s) |} s) in
      runReconcile r w req =
        (Val (Result_zero, client_StatusUpdate w back),
         {| engineOptions := options r; instance := back;
            actions := [ActStatusUpdate back] |}).
Proof.
  intros Hp Hdel Hst run. subst run.
  destruct (runPasses_deleting sub o req ws Hdel r (Some o) Hp) as [Hlog Hstore].
  { split; [reflexivity|by left]. }
  split; [exact Hlog|]. split; [exact Hstore|].
  intros w s Hg Hsame Herr back. subst back.
  destruct Hp as [p Hp]. unfold_pass. rewrite Hp, Hg.
  cbv [GetDeletionTimestamp GetMeta]. rewrite Hsame, Hdel, Herr. reflexivity.
Qed.

Lemma deleting_leaves_only_to_error_witness :
  let r := sampleEngine (Typed deletingTyped) in
  let ws := [badFlagsWorld deletingTyped; badFlagsWorld deletingTyped;
             sampleWorld None "" (true, None) (true, None)] in
  let run := runPasses true r sampleKey ws (Some deletingTyped) in
  Forall (Forall (writesDeletingOrError deletingTyped)) run.1
  ∧ deletingOrError deletingTyped run.2
  ∧ ∀ w s,
      client_Get w sampleKey = Found s →
      DeletionTimestamp (TypedMeta s) = DeletionTimestamp (TypedMeta deletingTyped) →
      State (TypedStatus s) = CustomStateError →
      let back :=
        Typed (SetStatus {| State := CustomStateDeleting;
                            Conditions := Conditions (TypedStatus s) |} s) in
      runReconcile r w sampleKey =
        (Val (Result_zero, client_StatusUpdate w back),
         {| engineOptions := options r; instance := back;
            actions := [ActStatusUpdate back] |}).
Proof.
  apply (deleting_leaves_only_to_error true (sampleEngine (Typed deletingTyped))
           sampleKey _ deletingTyped).
  - by eexists.
  - reflexivity.
  - reflexivity.
Defined.

(** Counterexample to C4 as stated, on two resources in Deleting whose chart
    flags do not parse.  With deletion intent, the pass commits state Error.
    Without deletion intent (the state was set from outside), the pass
    commits Error as well and the next pass commits Processing: the stored
    resource is back in a non-deleting state. *)
Lemma deleting_is_left_through_error :
  ¬ staysDeleting (sampleEngine (Typed deletingTyped))
      (badFlagsWorld deletingTyped) sampleKey deletingTyped
  ∧ ¬ staysDeleting (sampleEngine (Typed driftedTyped))
        (badFlagsWorld driftedTyped) sampleKey driftedTyped
  ∧ runPasses true (sampleEngine (Typed driftedTyped)) sampleKey
      [badFlagsWorld driftedTyped; badFlagsWorld driftedTyped] (Some driftedTyped)
    = ([[ActStatusUpdate (Typed (sampleObject None [deletionFinalizer] CustomStateError))];
        [ActStatusUpdate (Typed (sampleObject None [deletionFinalizer] CustomStateProcessing))]],
       Some (sampleObject None [deletionFinalizer] CustomStateProcessing)).
Proof.
  split; [|split].
  - intros Hclaim.
    specialize (Hclaim eq_refl
                  (Typed (sampleObject (Some 1) [deletionFinalizer] CustomStateError))).
    assert (Hin : ActStatusUpdate
                    (Typed (sampleObject (Some 1) [deletionFinalizer] CustomStateError))
                  ∈ actions (runReconcile (sampleEngine (Typed deletingTyped))
                               (badFlagsWorld deletingTyped) sampleKey).2).
    { vm_compute. apply list_elem_of_here. }
    specialize (Hclaim Hin). vm_compute in Hclaim. discriminate Hclaim.
  - intros Hclaim.
    specialize (Hclaim eq_refl
                  (Typed (sampleObject None [deletionFinalizer] CustomStateError))).
    assert (Hin : ActStatusUpdate
                    (Typed (sampleObject None [deletionFinalizer] CustomStateError))
                  ∈ actions (runReconcile (sampleEngine (Typed driftedTyped))
                               (badFlagsWorld driftedTyped) sampleKey).2).
    { vm_compute. apply list_elem_of_here. }
    specialize (Hclaim Hin). vm_compute in Hclaim. discriminate Hclaim.
  - vm_compute. reflexivity.
Qed.

(** ** Engine state between passes *)

(** C9, as amended.  The pending resource labels are the one piece of state
    the engine keeps between passes.  With no label pending, a pass leaves
    the engine as it found it, and a second pass started from the same
    persisted value against the same collaborators performs the same
    actions, returns the same result and ends with the same instance. *)
Theorem replay_without_pending_labels r w req :
  resourceLabels (options r) = ∅ →
  let first := runReconcile r w req in
  let second := runReconcile (engineAfter r first.2) w req in
  engineAfter r first.2 = r ∧ second = first.
Proof.
  intros Hlabels first second.
  assert (Hsame : engineAfter r first.2 = r).
  { subst first second. unfold engineAfter.
    destruct r as [proto cfg [f v labels]]. cbn in Hlabels. subst labels.
    f_equal. unfold_pass. cbn [prototype config options].
    cbv [AddFinalizer].
    repeat (case_match; simplify_eq/=); try reflexivity;
      match goal with
      | H : (0 < size _)%nat |- _ =>
          rewrite map_size_empty in H; lia
      end. }
  split; [exact Hsame|]. subst second. by rewrite Hsame.
Qed.

Lemma replay_without_pending_labels_witness :
  let r := sampleEngine (Typed processingTyped) in
  let w := badFlagsWorld processingTyped in
  let first := runReconcile r w sampleKey in
  let second := runReconcile (engineAfter r first.2) w sampleKey in
  engineAfter r first.2 = r ∧ second = first.
Proof.
  apply (replay_without_pending_labels (sampleEngine (Typed processingTyped))
           (badFlagsWorld processingTyped) sampleKey).
  reflexivity.
Defined.

(** Counterexample to C9 as stated: the first pass applies the pending label
    with an update and clears the option; the second pass, from the same
    persisted value, commits Processing with a status update. *)
Lemma pending_labels_break_replay :
  ¬ replayable (labellingEngine (Typed freshTyped))
      (sampleWorld (Some freshTyped) "" (true, None) (true, None)) sampleKey.
Proof.
  intros (_ & Hacts & _). vm_compute in Hacts. discriminate Hacts.
Qed.

(** ** The two representations *)

(** C7: the builder never returns for a typed resource.  The conversion
    result is assigned through the nil [unstructuredObj], so the builder
    panics whatever the converter answers, where an InstallInfo with the
    converted resource was to be returned. *)
Theorem prepareInstallInfo_typed_panics r w typedObject chartPath releaseName s :
  prepareInstallInfo r w (Typed typedObject) chartPath releaseName s =
    (Panicked "invalid memory address or nil pointer dereference", s).
Proof.
  unfold prepareInstallInfo. cbn.
  destruct (converter_ToUnstructured w typedObject). reflexivity.
Qed.

(** A consequence for the entry point: [Reconcile] hands only typed
    instances to the handlers, so no pass it runs gets to call Install or
    Uninstall. *)
Lemma Reconcile_never_installs r w req :
  Forall (λ a, match a with
               | ActInstall _ _ | ActUninstall _ _ => False
               | _ => True
               end) (actions (runReconcile r w req).2).
Proof.
  unfold_pass. cbv [AddFinalizer].
  repeat (case_match; simplify_eq/=);
    repeat (apply Forall_cons; split); try apply Forall_nil; exact I.
Qed.

Lemma generic_prototype_is_rejected r w req u :
  prototype r = Generic u →
  runReconcile r w req =
    (Val (Result_zero, Some (getTypeError req)), startPass (options r) (Generic u)).
Proof. intros Hp. unfold runReconcile, Reconcile. rewrite Hp. reflexivity. Qed.

(** C8, as amended.  [Reconcile] drives the typed representation only.  With
    a prototype that is not a typed object, the generic attribute-map form
    included, every pass fails the type assertion: it returns the type error
    for the key, loads nothing, makes no call, and records no state
    transition, whatever the resource and the collaborators. *)
Theorem untyped_prototype_records_nothing r w req :
  (∀ p, prototype r ≠ Typed p) →
  runReconcile r w req =
    (Val (Result_zero, Some (TypeError req)), startPass (options r) (prototype r))
  ∧ committedStates w (actions (runReconcile r w req).2) = [].
Proof.
  intros Hp. unfold runReconcile, Reconcile.
  destruct (prototype r) as [p|u|m]; [by destruct (Hp p)|done..].
Qed.

Lemma untyped_prototype_records_nothing_witness :
  let r := sampleEngine (Generic freshGeneric) in
  let w := quietWorld freshTyped in
  runReconcile r w sampleKey =
    (Val (Result_zero, Some (TypeError sampleKey)),
     startPass (options r) (prototype r))
  ∧ committedStates w (actions (runReconcile r w sampleKey).2) = [].
Proof.
  apply (untyped_prototype_records_nothing (sampleEngine (Generic freshGeneric))
           (quietWorld freshTyped) sampleKey).
  intros p. discriminate.
Defined.

(** Counterexample to C8 as stated: the fresh resource with the finalizer.
    The pass on the typed prototype commits Processing; the pass on the
    generic prototype of the same resource commits nothing. *)
Lemma representations_record_differently :
  ¬ sameTransitions (quietWorld freshTyped) sampleKey
      (sampleEngine (Typed freshTyped)) (sampleEngine (Generic freshGeneric)).
Proof.
  unfold sameTransitions. vm_compute. discriminate.
Qed.

(** ** The theorems at concrete resources *)

Lemma finalizer_before_install_witness :
  let gated := Typed (sampleObject None [deletionFinalizer] "") in
  (runReconcile (sampleEngine (Typed unguardedTyped)) (quietWorld unguardedTyped)
     sampleKey =
     (Val (Result_zero, None),
      {| engineOptions := manifestOptions_zero; instance := gated;
         actions := [ActUpdate gated] |})
   ∧ Forall (λ a, isInstall a = false)
       (actions (runReconcile (sampleEngine (Typed unguardedTyped))
                   (quietWorld unguardedTyped) sampleKey).2))
  ∧ hasDeletionFinalizer (Typed processingTyped) = true.
Proof.
  split.
  - apply (finalizer_before_install (sampleEngine (Typed unguardedTyped))
             (quietWorld unguardedTyped) sampleKey unguardedTyped);
      [split; [by eexists|reflexivity] | reflexivity | reflexivity].
  - apply (finalizer_before_install (sampleEngine (Typed processingTyped))
             (quietWorld processingTyped) sampleKey processingTyped).
    + split; [by eexists|reflexivity].
    + vm_compute. apply Exists_cons_hd. reflexivity.
Defined.

Lemma deletion_preempts_dispatch_witness :
  runReconcile (sampleEngine (Typed condemnedTyped)) (quietWorld condemnedTyped)
    sampleKey =
    (Val (Result_zero, None),
     {| engineOptions := manifestOptions_zero; instance := Typed deletingTyped;
        actions := [ActStatusUpdate (Typed deletingTyped)] |}).
Proof.
  apply (deletion_preempts_dispatch (sampleEngine (Typed condemnedTyped))
           (quietWorld condemnedTyped) sampleKey condemnedTyped).
  - split; [by eexists|reflexivity].
  - reflexivity.
  - discriminate.
Defined.

Lemma unrecognised_state_is_noop_witness :
  runReconcile (sampleEngine (Typed pausedTyped)) (quietWorld pausedTyped) sampleKey =
    (Val ({| Requeue := false; RequeueAfter := 0 |}, None),
     {| engineOptions := manifestOptions_zero; instance := Typed pausedTyped;
        actions := [] |}).
Proof.
  apply (unrecognised_state_is_noop (sampleEngine (Typed pausedTyped))
           (quietWorld pausedTyped) sampleKey pausedTyped).
  - split; [by eexists|reflexivity].
  - unfold recognisedStates. cbn.
    repeat (apply not_elem_of_cons; split; [discriminate|]).
    apply not_elem_of_nil.
  - reflexivity.
  - reflexivity.
Defined.

(** * Further properties of the reconciler *)

(** Reduce the gate of a loaded resource that passes both checks. *)
Ltac enter_dispatch Hp Hg Hfin Hdel :=
  unfold_pass; rewrite Hp, Hg;
  cbv [AddFinalizer GetDeletionTimestamp GetMeta];
  unfold hasDeletionFinalizer in Hfin; cbv [GetFinalizers GetMeta] in Hfin;
  cbv [GetFinalizers GetMeta];
  rewrite Hfin, Hdel; cbn [negb andb].

(** X1. A loaded resource in Error, with the finalizer and no deletion
    intent: the pass sets the state to Processing, keeps the conditions,
    commits with one status update and returns the result of the commit.
    Nothing about the resource is inspected first: the retry is
    unconditional. *)
Theorem error_state_retries r w req o :
  loaded r w req o →
  hasDeletionFinalizer (Typed o) = true →
  Time_IsZero (DeletionTimestamp (TypedMeta o)) = true →
  State (TypedStatus o) = CustomStateError →
  let committed :=
    Typed (SetStatus {| State := CustomStateProcessing;
                        Conditions := Conditions (TypedStatus o) |} o) in
  runReconcile r w req =
    (Val (Result_zero, client_StatusUpdate w committed),
     {| engineOptions := options r; instance := committed;
        actions := [ActStatusUpdate committed] |}).
Proof.
  intros [[p Hp] Hg] Hfin Hdel Hst committed. subst committed.
  enter_dispatch Hp Hg Hfin Hdel. rewrite Hst. reflexivity.
Qed.

(** X2. A loaded resource in Ready, with the finalizer and no deletion
    intent: the pass makes no call to the cluster or to the manifest
    library, leaves the instance and the engine as they were, and returns
    the zero result with a nil error. *)
Theorem ready_state_is_stable r w req o :
  loaded r w req o →
  hasDeletionFinalizer (Typed o) = true →
  Time_IsZero (DeletionTimestamp (TypedMeta o)) = true →
  State (TypedStatus o) = CustomStateReady →
  runReconcile r w req =
    (Val (Result_zero, None),
     {| engineOptions := options r; instance := Typed o; actions := [] |}).
Proof.
  intros [[p Hp] Hg] Hfin Hdel Hst.
  enter_dispatch Hp Hg Hfin Hdel. rewrite Hst. reflexivity.
Qed.

(** X3. A loaded resource with the empty state, the finalizer and no
    deletion intent, met by an engine with no resource labels pending: the
    pass sets the state to Processing, keeps the conditions, commits with
    one status update and returns the result of the commit. *)
Theorem initial_state_starts_processing r w req o :
  loaded r w req o →
  hasDeletionFinalizer (Typed o) = true →
  Time_IsZero (DeletionTimestamp (TypedMeta o)) = true →
  State (TypedStatus o) = "" →
  resourceLabels (options r) = ∅ →
  let committed :=
    Typed (SetStatus {| State := CustomStateProcessing;
                        Conditions := Conditions (TypedStatus o) |} o) in
  runReconcile r w req =
    (Val (Result_zero, client_StatusUpdate w committed),
     {| engineOptions := options r; instance := committed;
        actions := [ActStatusUpdate committed] |}).
Proof.
  intros [[p Hp] Hg] Hfin Hdel Hst Hlabels committed. subst committed.
  destruct r as [proto cfg [f v labels]]. cbn in Hp, Hlabels. subst labels.
  enter_dispatch Hp Hg Hfin Hdel. rewrite Hst. cbn.
  reflexivity.
Qed.

Lemma pending_labels_pass r w req o old :
  loaded r w req o →
  hasDeletionFinalizer (Typed o) = true →
  Time_IsZero (DeletionTimestamp (TypedMeta o)) = true →
  State (TypedStatus o) = "" →
  Labels (TypedMeta o) = Some old →
  resourceLabels (options r) ≠ ∅ →
  let labelled := SetLabels (Some (resourceLabels (options r) ∪ old)) (Typed o) in
  runReconcile r w req =
    (Val (Result_zero, client_Update w labelled),
     {| engineOptions := {| force := force (options r); verify := verify (options r);
                            resourceLabels := ∅ |};
        instance := labelled; actions := [ActUpdate labelled] |}).
Proof.
  intros [[p Hp] Hg] Hfin Hdel Hst Hold Hpending.
  destruct r as [proto cfg [f v labels]]. cbn in Hp, Hpending |- *.
  enter_dispatch Hp Hg Hfin Hdel. rewrite Hst. cbn.
  destruct (decide (0 < size labels)%nat) as [_|Hsize].
  - cbv [GetLabels GetMeta]. rewrite Hold. reflexivity.
  - exfalso. apply Hpending, map_size_empty_iff. lia.
Qed.

(** X4. A fresh resource (empty state, finalizer present, no deletion
    intent) whose label map exists, met by an engine with resource labels
    pending: the pass writes the resource once with [Update] and commits no
    status.  Every pending label is on the written resource with its pending
    value, every other label is as it was, the state is still empty, and the
    engine's pending labels are cleared. *)
Theorem pending_labels_are_applied r w req o old :
  loaded r w req o →
  hasDeletionFinalizer (Typed o) = true →
  Time_IsZero (DeletionTimestamp (TypedMeta o)) = true →
  State (TypedStatus o) = "" →
  Labels (TypedMeta o) = Some old →
  resourceLabels (options r) ≠ ∅ →
  ∃ new,
    let labelled := SetLabels (Some new) (Typed o) in
    runReconcile r w req =
      (Val (Result_zero, client_Update w labelled),
       {| engineOptions := {| force := force (options r); verify := verify (options r);
                              resourceLabels := ∅ |};
          instance := labelled; actions := [ActUpdate labelled] |})
    ∧ (∀ k v, resourceLabels (options r) !! k = Some v → new !! k = Some v)
    ∧ (∀ k, resourceLabels (options r) !! k = None → new !! k = old !! k)
    ∧ typedState labelled = Some "".
Proof.
  intros Hload Hfin Hdel Hst Hold Hpending.
  exists (resourceLabels (options r) ∪ old). cbv zeta. split; [|split; [|split]].
  - by apply pending_labels_pass.
  - intros k v Hk. by apply lookup_union_Some_l.
  - intros k Hk. by apply lookup_union_r.
  - cbn. by rewrite Hst.
Qed.

Lemma nil_labels_panic r w req o :
  loaded r w req o →
  hasDeletionFinalizer (Typed o) = true →
  Time_IsZero (DeletionTimestamp (TypedMeta o)) = true →
  State (TypedStatus o) = "" →
  Labels (TypedMeta o) = None →
  resourceLabels (options r) ≠ ∅ →
  runReconcile r w req =
    (Panicked "assignment to entry in nil map",
     {| engineOptions := options r; instance := Typed o; actions := [] |}).
Proof.
  intros [[p Hp] Hg] Hfin Hdel Hst Hnil Hpending.
  destruct r as [proto cfg [f v labels]]. cbn in Hp, Hpending |- *.
  enter_dispatch Hp Hg Hfin Hdel. rewrite Hst. cbn.
  destruct (decide (0 < size labels)%nat) as [_|Hsize].
  - cbv [GetLabels GetMeta]. rewrite Hnil. reflexivity.
  - exfalso. apply Hpending, map_size_empty_iff. lia.
Qed.

(** X5. A fresh resource whose label map is nil, met by an engine with
    resource labels pending: the pass panics on the assignment into the nil
    map before anything is written, and the pending labels stay.  So however
    often the key is delivered again and whatever the collaborators answer,
    no pass makes any call and the stored resource never changes. *)
Theorem nil_labels_block_every_pass sub r req ws o :
  (∃ p, prototype r = Typed p) →
  hasDeletionFinalizer (Typed o) = true →
  Time_IsZero (DeletionTimestamp (TypedMeta o)) = true →
  State (TypedStatus o) = "" →
  Labels (TypedMeta o) = None →
  resourceLabels (options r) ≠ ∅ →
  (∀ w, (runReconcile r (withStore (Some o) w) req).1
        = Panicked "assignment to entry in nil map")
  ∧ runPasses sub r req ws (Some o) = (replicate (length ws) [], Some o).
Proof.
  intros Hp Hfin Hdel Hst Hnil Hpending.
  assert (Hpass : ∀ w, runReconcile r (withStore (Some o) w) req =
            (Panicked "assignment to entry in nil map",
             {| engineOptions := options r; instance := Typed o; actions := [] |})).
  { intros w. apply nil_labels_panic; first [done | by split]. }
  split; [intros w; by rewrite Hpass|].
  induction ws as [|w ws IH]; [reflexivity|].
  cbn [runPasses]. rewrite Hpass. unfold engineAfter.
  cbn [snd actions fold_left engineOptions].
  replace {| prototype := prototype r; config := config r; options := options r |}
    with r by (by destruct r).
  rewrite IH. reflexivity.
Qed.

(** X6. Whatever the engine, the collaborators and the key, every status
    update a pass through [Reconcile] sends carries the state Deleting,
    Processing or Error.  Ready is never committed: it is only set after
    Install, which a typed instance does not reach. *)
Theorem Reconcile_never_commits_ready r w req :
  Forall (λ a, match a with
               | ActStatusUpdate x =>
                   typedState x = Some CustomStateDeleting
                   ∨ typedState x = Some CustomStateProcessing
                   ∨ typedState x = Some CustomStateError
               | _ => True
               end) (actions (runReconcile r w req).2).
Proof.
  unfold_pass. cbv [AddFinalizer].
  repeat (case_match; simplify_eq/=);
    repeat (apply Forall_cons; split); try apply Forall_nil; cbn; auto.
Qed.

(** X7. When [Get] fails the pass ends at once, with no call made and the
    engine unchanged: a not-found error is swallowed (nil error), any other
    error is returned as it is. *)
Theorem Get_failure_ends_pass r w req e :
  (∃ p, prototype r = Typed p) →
  client_Get w req = GetFailed e →
  runReconcile r w req =
    (Val (Result_zero, if e is NotFoundError _ then None else Some e),
     startPass (options r) (prototype r)).
Proof.
  intros [p Hp] Hg. unfold_pass. rewrite Hp, Hg. by destruct e.
Qed.

(** X8. An object instance that is neither typed nor unstructured: the
    three accessors and the initial, processing, deleting and error handlers
    all return the type error that names the object by namespace and name,
    and none of them changes the instance, the engine or the log. *)
Theorem foreign_instance_is_a_type_error r w opts m :
  let st := startPass opts (Foreign m) in
  let err := Some (TypeError (Namespace m ++ "/" ++ Name m)) in
  HandleInitialState r w st = (Val err, st)
  ∧ HandleProcessingState r w st = (Val err, st)
  ∧ HandleDeletingState r w st = (Val err, st)
  ∧ HandleErrorState r w st = (Val err, st)
  ∧ setStatusForObjectInstance w CustomObjectStatus_zero st = (Val err, st)
  ∧ (getStatusFromObjectInstance w (Foreign m)).2 = err
  ∧ (getSpecFromObjectInstance w (Foreign m)).2 = err.
Proof. repeat split. Qed.

(** X10. [setStatusForObjectInstance] touches the status only: whether it
    succeeds or fails, the spec read from the instance, its metadata, the
    log and the engine options are as before. *)
Theorem status_set_keeps_the_rest w status st :
  let st' := (setStatusForObjectInstance w status st).2 in
  getSpecFromObjectInstance w (instance st') = getSpecFromObjectInstance w (instance st)
  ∧ GetMeta (instance st') = GetMeta (instance st)
  ∧ actions st' = actions st
  ∧ engineOptions st' = engineOptions st.
Proof.
  unfold_pass. destruct st as [opts [t|u|m] acts]; cbn; [done| |done].
  destruct (converter_StatusToUnstructured w status) as [m [e|]]; cbn; [done|].
  repeat split. unfold NestedMap. by rewrite lookup_insert_ne.
Qed.

(** X11. When the processing handler calls Install and Install answers
    [ready = false] with a nil error, the handler returns nil and makes no
    write: the log holds the client creation and the Install call only, and
    the instance is untouched. *)
Theorem install_in_progress_writes_nothing r w opts obj ops info :
  let out := HandleProcessingState r w (startPass opts obj) in
  ActInstall ops info ∈ actions out.2 →
  manifest_Install w ops info = (false, None) →
  ∃ cfg,
    out = (Val None,
           {| engineOptions := opts; instance := obj;
              actions := [ActNewOperations cfg; ActInstall ops info] |}).
Proof.
  intros out. subst out. unfold_pass.
  repeat (case_match; simplify_eq/=); intros Hin Hres;
    log_cases Hin; simplify_eq; try congruence; by eexists.
Qed.

(** X13. When the deleting handler calls Uninstall and Uninstall answers
    [removed = false] with a nil error, the handler returns nil and makes no
    write: the instance, finalizer included, is untouched. *)
Theorem uninstall_in_progress_writes_nothing r w opts obj ops info :
  let out := HandleDeletingState r w (startPass opts obj) in
  ActUninstall ops info ∈ actions out.2 →
  manifest_Uninstall w ops info = (false, None) →
  ∃ cfg,
    out = (Val None,
           {| engineOptions := opts; instance := obj;
              actions := [ActNewOperations cfg; ActUninstall ops info] |}).
Proof.
  intros out. subst out. unfold_pass.
  repeat (case_match; simplify_eq/=); intros Hin Hres;
    log_cases Hin; simplify_eq; try congruence; by eexists.
Qed.

(** X14. When the deleting handler calls Uninstall on an instance that
    carries the deletion finalizer and Uninstall answers [removed = true]
    with a nil error, the last call of the pass is an [Update] of the
    instance without that finalizer, whose result the handler returns.
    Every other finalizer is kept and the status is not touched. *)
Theorem uninstall_done_releases_finalizer r w opts obj ops info :
  let out := HandleDeletingState r w (startPass opts obj) in
  let released := (RemoveFinalizer obj deletionFinalizer).1 in
  ActUninstall ops info ∈ actions out.2 →
  manifest_Uninstall w ops info = (true, None) →
  hasDeletionFinalizer obj = true →
  ∃ cfg,
    out = (Val (client_Update w released),
           {| engineOptions := opts; instance := released;
              actions := [ActNewOperations cfg; ActUninstall ops info;
                          ActUpdate released] |})
    ∧ hasDeletionFinalizer released = false
    ∧ (∀ f, f ≠ deletionFinalizer →
            f ∈ GetFinalizers released ↔ f ∈ GetFinalizers obj)
    ∧ getStatusFromObjectInstance w released = getStatusFromObjectInstance w obj.
Proof.
  intros out released Hin Hres Hfin.
  assert (Hrel : hasDeletionFinalizer released = false)
    by apply hasDeletionFinalizer_RemoveFinalizer.
  assert (Hkeep : ∀ f, f ≠ deletionFinalizer →
            f ∈ GetFinalizers released ↔ f ∈ GetFinalizers obj).
  { intros f Hf. subst released. destruct obj; cbn; rewrite list_elem_of_filter; tauto. }
  assert (Hstatus : getStatusFromObjectInstance w released
                    = getStatusFromObjectInstance w obj)
    by (subst released; by destruct obj).
  revert Hin Hres. subst out. unfold_pass.
  unfold hasDeletionFinalizer in Hfin.
  repeat (case_match; simplify_eq/=); intros Hin Hres;
    log_cases Hin; simplify_eq; try congruence; eexists; repeat split; try done;
    by apply Hkeep.
Qed.

(** X16. The finalizer gate also applies during deletion.  A loaded
    resource in Deleting that lacks the deletion finalizer, with or without a
    deletion timestamp, gets the finalizer appended and is written with one
    [Update]; the deleting handler does not run and the state stays
    Deleting. *)
Theorem finalizer_gate_in_deleting r w req o :
  loaded r w req o →
  State (TypedStatus o) = CustomStateDeleting →
  hasDeletionFinalizer (Typed o) = false →
  let gated := SetFinalizers (Finalizers (TypedMeta o) ++ [deletionFinalizer]) (Typed o) in
  runReconcile r w req =
    (Val (Result_zero, client_Update w gated),
     {| engineOptions := options r; instance := gated; actions := [ActUpdate gated] |})
  ∧ hasDeletionFinalizer gated = true
  ∧ typedState gated = Some CustomStateDeleting.
Proof.
  intros [[p Hp] Hg] Hst Hfin gated. subst gated. split; [|split].
  - unfold_pass. rewrite Hp, Hg.
    cbv [AddFinalizer GetDeletionTimestamp GetMeta].
    unfold hasDeletionFinalizer in Hfin. cbv [GetFinalizers GetMeta] in Hfin |- *.
    rewrite Hfin, Hst. cbn. rewrite andb_false_r. reflexivity.
  - unfold hasDeletionFinalizer, containsFinalizer. cbn.
    rewrite existsb_app. cbn. by rewrite orb_true_r.
  - cbn. by rewrite Hst.
Qed.

(** [Inject] stores the object as prototype and the manager's
    configuration even when it fails, fails exactly for an object that is
    neither typed nor unstructured (with the type error naming it), and
    never applies the options it is given: the engine's options are as
    before. *)
Theorem Inject_ignores_options toLower mgrConfig customObject opts r :
  let injected := Inject toLower mgrConfig customObject opts r in
  prototype injected.1 = customObject
  ∧ config injected.1 = mgrConfig
  ∧ options injected.1 = options r
  ∧ injected.2 = match customObject with
                 | Foreign m => Some (TypeError (Namespace m ++ "/" ++ Name m))
                 | _ => None
                 end.
Proof. by destruct customObject. Qed.

(** ** Handlers on the generic representation *)

(** Close a case in which the converter accepted a status value. *)
Ltac reject_value Hrej :=
  match goal with
  | H : converter_StatusToUnstructured _ ?s = (_, None) |- _ =>
      exfalso; apply (Hrej s); by rewrite H
  end.

(** X9. With a converter that rejects the status values it is handed, no
    state handler ever sends a status update for an unstructured instance,
    and the status read from the instance after the handler is the status
    read before it: run on the generic representation, the handlers never
    move the state machine.  The error handler, which is to send the
    resource back to Processing, returns an error and leaves the pass as it
    found it. *)
Theorem generic_status_is_never_committed r w opts u :
  rejectsStatusValues w →
  let st := startPass opts (Generic u) in
  let quiet (out : Res (option error) * Pass) :=
    Forall notStatusUpdate (actions out.2)
    ∧ getStatusFromObjectInstance w (instance out.2)
      = getStatusFromObjectInstance w (Generic u) in
  quiet (HandleInitialState r w st)
  ∧ quiet (HandleProcessingState r w st)
  ∧ quiet (HandleDeletingState r w st)
  ∧ quiet (HandleErrorState r w st)
  ∧ quiet (HandleReadyState r w st)
  ∧ ∃ err, HandleErrorState r w st = (Val (Some err), st).
Proof.
  intros Hrej st quiet. subst st quiet. cbv beta.
  repeat split; unfold_pass;
    repeat (case_match; simplify_eq/=); try reject_value Hrej;
    repeat (apply Forall_cons; split); try apply Forall_nil; try exact I;
    try done; by eexists.
Qed.

Lemma generic_status_is_never_committed_witness :
  let r := sampleEngine (Generic processingGeneric) in
  let w := emptyWorld in
  let st := startPass manifestOptions_zero (Generic processingGeneric) in
  let quiet (out : Res (option error) * Pass) :=
    Forall notStatusUpdate (actions out.2)
    ∧ getStatusFromObjectInstance w (instance out.2)
      = getStatusFromObjectInstance w (Generic processingGeneric) in
  (quiet (HandleInitialState r w st)
   ∧ quiet (HandleProcessingState r w st)
   ∧ quiet (HandleDeletingState r w st)
   ∧ quiet (HandleErrorState r w st)
   ∧ quiet (HandleReadyState r w st)
   ∧ ∃ err, HandleErrorState r w st = (Val (Some err), st))
  ∧ HandleErrorState r w st
    = (Val (Some (Errorf "unable to convert unstructured to addonStatus: "
                    (ExternalError
                       "ToUnstructured requires a non-nil pointer to an object, got types.CustomObjectStatus"))),
       st).
Proof.
  split.
  - apply (generic_status_is_never_committed
             (sampleEngine (Generic processingGeneric)) emptyWorld
             manifestOptions_zero processingGeneric).
    intros status. vm_compute. discriminate.
  - vm_compute. reflexivity.
Defined.

(** X12. With a converter that rejects the status values it is handed, a
    processing handler whose Install call answers [ready = true] or an error
    cannot record the outcome: it returns the conversion error wrapped as
    "unable to convert unstructured to addonStatus", sends no status update
    and leaves the instance as it was.  Only the client creation and the
    Install call are in the log. *)
Theorem install_outcome_is_not_recorded r w opts obj ops info :
  rejectsStatusValues w →
  let out := HandleProcessingState r w (startPass opts obj) in
  ActInstall ops info ∈ actions out.2 →
  manifest_Install w ops info ≠ (false, None) →
  ∃ cfg status m e',
    converter_StatusToUnstructured w status = (m, Some e')
    ∧ (State status = CustomStateReady ∨ State status = CustomStateError)
    ∧ out = (Val (Some (Errorf "unable to convert unstructured to addonStatus: " e')),
             {| engineOptions := opts; instance := obj;
                actions := [ActNewOperations cfg; ActInstall ops info] |}).
Proof.
  intros Hrej out. subst out. unfold_pass.
  repeat (case_match; simplify_eq/=); try reject_value Hrej; intros Hin Hres;
    log_cases Hin; simplify_eq; try congruence;
    eexists _, _, _, _; (split; [eassumption|]); (split; [|reflexivity]); cbn; auto.
Qed.

Lemma install_outcome_is_not_recorded_witness :
  let obj := Generic processingGeneric in
  let out := HandleProcessingState (sampleEngine obj) emptyWorld
               (startPass manifestOptions_zero obj) in
  ∃ cfg status m e',
    converter_StatusToUnstructured emptyWorld status = (m, Some e')
    ∧ (State status = CustomStateReady ∨ State status = CustomStateError)
    ∧ out = (Val (Some (Errorf "unable to convert unstructured to addonStatus: " e')),
             {| engineOptions := manifestOptions_zero; instance := obj;
                actions := [ActNewOperations cfg;
                            ActInstall sampleOperations
                              (sampleInstallInfo processingGeneric)] |}).
Proof.
  apply (install_outcome_is_not_recorded
           (sampleEngine (Generic processingGeneric)) emptyWorld
           manifestOptions_zero (Generic processingGeneric)
           sampleOperations (sampleInstallInfo processingGeneric)).
  - intros status. vm_compute. discriminate.
  - vm_compute. apply list_elem_of_further, list_elem_of_here.
  - vm_compute. discriminate.
Defined.

(** X15. With a converter that rejects the status values it is handed, a
    deleting handler whose Uninstall call returns a non-nil error cannot
    record it: it returns the conversion error wrapped as "unable to convert
    unstructured to addonStatus", not the Uninstall error, sends no status
    update, and leaves the instance, finalizers included, as it was. *)
Theorem uninstall_error_is_not_recorded r w opts obj ops info removed e :
  rejectsStatusValues w →
  let out := HandleDeletingState r w (startPass opts obj) in
  let status := (getStatusFromObjectInstance w obj).1 in
  let failed := {| State := CustomStateError; Conditions := Conditions status |} in
  ActUninstall ops info ∈ actions out.2 →
  manifest_Uninstall w ops info = (removed, Some e) →
  ∃ cfg m e',
    converter_StatusToUnstructured w failed = (m, Some e')
    ∧ out = (Val (Some (Errorf "unable to convert unstructured to addonStatus: " e')),
             {| engineOptions := opts; instance := obj;
                actions := [ActNewOperations cfg; ActUninstall ops info] |}).
Proof.
  intros Hrej out status failed. subst out status failed. unfold_pass.
  repeat (case_match; simplify_eq/=); try reject_value Hrej; intros Hin Hres;
    log_cases Hin; simplify_eq; try congruence;
    eexists _, _, _; split; [eassumption|reflexivity].
Qed.

Lemma uninstall_error_is_not_recorded_witness :
  let obj := Generic deletingGeneric in
  let w := failingUninstallWorld in
  let out := HandleDeletingState (sampleEngine obj) w
               (startPass manifestOptions_zero obj) in
  let failed := {| State := CustomStateError; Conditions := [] |} in
  ∃ cfg m e',
    converter_StatusToUnstructured w failed = (m, Some e')
    ∧ out = (Val (Some (Errorf "unable to convert unstructured to addonStatus: " e')),
             {| engineOptions := manifestOptions_zero; instance := obj;
                actions := [ActNewOperations cfg;
                            ActUninstall sampleOperations
                              (sampleInstallInfo deletingGeneric)] |}).
Proof.
  apply (uninstall_error_is_not_recorded
           (sampleEngine (Generic deletingGeneric)) failingUninstallWorld
           manifestOptions_zero (Generic deletingGeneric)
           sampleOperations (sampleInstallInfo deletingGeneric)
           false (ExternalError "chart uninstall failed")).
  - intros status. vm_compute. discriminate.
  - vm_compute. apply list_elem_of_further, list_elem_of_here.
  - reflexivity.
Defined.

(** * Properties of package [util] *)

(** ** Path joining *)

Lemma splitBy_nonempty sep s : splitBy sep s ≠ [].
Proof.
  destruct s as [|d s]; cbn; [done|].
  destruct (sep d); [done|]. by destruct (splitBy sep s).
Qed.

Lemma splitBy_replace s :
  splitBy (Ascii.eqb "/"%char) (replaceByte "\"%char "/"%char s)
  = map (replaceByte "\"%char "/"%char) (splitBy isSeparator s).
Proof.
  induction s as [|d s IH]; [reflexivity|].
  cbn [replaceByte splitBy]. unfold isSeparator at 1.
  destruct (Ascii.eqb d "\"%char) eqn:Hb.
  - rewrite orb_true_r. cbn [map]. rewrite Ascii.eqb_refl. by rewrite IH.
  - rewrite orb_false_r. rewrite (Ascii.eqb_sym "/"%char d).
    destruct (Ascii.eqb d "/"%char) eqn:Hs.
    + cbn [map]. by rewrite IH.
    + rewrite IH. pose proof (splitBy_nonempty isSeparator s).
      destruct (splitBy isSeparator s) as [|part parts]; [done|].
      cbn [map replaceByte]. by rewrite Hb.
Qed.

Lemma replaceByte_dotdot part :
  replaceByte "\"%char "/"%char part = ".." ↔ part = "..".
Proof.
  split; [|by intros ->].
  destruct part as [|a [|b [|c part]]]; cbn [replaceByte]; try done.
  destruct (Ascii.eqb_spec a "\"%char), (Ascii.eqb_spec b "\"%char);
    intros [=]; by subst.
Qed.

Lemma existsb_dotdot parts :
  existsb (String.eqb "..") parts = true ↔ ".." ∈ parts.
Proof.
  rewrite existsb_exists, list_elem_of_In. split.
  - intros (x & Hin & Heq). apply String.eqb_eq in Heq. by subst.
  - intros Hin. exists "..". split; [done|apply String.eqb_refl].
Qed.

(** X17. [CleanFilePathJoin] accepts a destination exactly when it has no colon,
    none of its components (cut at either separator, slash or backslash) is
    [..], and it does not start with a separator.  A rejected destination
    yields the empty path; an accepted one the slash form of the root joined
    with the cleaned destination, backslashes turned into slashes. *)
Theorem CleanFilePathJoin_accepts_iff fp root destDir :
  ((CleanFilePathJoin fp root destDir).2 = None
   ↔ containsByte ":"%char destDir = false
     ∧ (".." ∉ splitBy isSeparator destDir)
     ∧ match destDir with
       | String d _ => isSeparator d = false
       | EmptyString => True
       end)
  ∧ match (CleanFilePathJoin fp root destDir).2 with
    | Some _ => (CleanFilePathJoin fp root destDir).1 = ""
    | None =>
        (CleanFilePathJoin fp root destDir).1
        = filepath_ToSlash fp
            (filepath_Join fp
               [root; filepath_Clean fp (replaceByte "\"%char "/"%char destDir)])
    end.
Proof.
  unfold CleanFilePathJoin.
  destruct (containsByte ":"%char destDir) eqn:Hcolon; cbn [fst snd].
  { split; [|done]. split; [done|]. by intros [? _]. }
  destruct (existsb _ _) eqn:Hdots; cbn [fst snd].
  { split; [|done]. split; [done|]. intros (_ & Hnot & _). exfalso. apply Hnot.
    apply existsb_dotdot in Hdots. rewrite splitBy_replace in Hdots.
    apply list_elem_of_fmap in Hdots as (part & Heq & Hin).
    symmetry in Heq. apply (proj1 (replaceByte_dotdot part)) in Heq. by subst. }
  assert (Hnodots : ".." ∉ splitBy isSeparator destDir).
  { intros Hin. apply not_true_iff_false in Hdots. apply Hdots, existsb_dotdot.
    rewrite splitBy_replace. apply list_elem_of_fmap. by exists "..". }
  assert (Habs : path_IsAbs (replaceByte "\"%char "/"%char destDir)
                 = match destDir with
                   | String d _ => isSeparator d
                   | EmptyString => false
                   end).
  { destruct destDir as [|d s]; [done|]. cbn [replaceByte path_IsAbs].
    unfold isSeparator.
    destruct (Ascii.eqb d "\"%char); [by rewrite orb_true_r|by rewrite orb_false_r]. }
  rewrite Habs. destruct destDir as [|d s]; cbn [fst snd]; [by repeat split|].
  destruct (isSeparator d); cbn [fst snd].
  - split; [|done]. split; [done|]. by intros (_ & _ & ?).
  - by repeat split.
Qed.

(** ** Resource labels *)

(** [GetResourceLabel] succeeds exactly when the resource has the label,
    nil label map included, and then returns its value.  When the label is
    missing, the value is empty and the error names the resource but not
    the label that was asked for: its label name is always empty. *)
Theorem GetResourceLabel_result resource labelName :
  match GetLabels resource ≫= (.!! labelName) with
  | Some value => GetResourceLabel resource labelName = (value, None)
  | None =>
      GetResourceLabel resource labelName
      = ("", Some {| ErrResource := resource; ErrLabelName := "" |})
  end.
Proof.
  unfold GetResourceLabel, mapIndex.
  by destruct (GetLabels resource ≫= (.!! labelName)).
Qed.

(** X18. The labels a pass applied can be read back with
    [GetResourceLabel]: on the instance the label pass leaves, every pending
    label is found with its pending value, and a label that was not pending
    reads the value it read before the pass. *)
Theorem applied_labels_are_readable r w req o old :
  loaded r w req o →
  hasDeletionFinalizer (Typed o) = true →
  Time_IsZero (DeletionTimestamp (TypedMeta o)) = true →
  State (TypedStatus o) = "" →
  Labels (TypedMeta o) = Some old →
  resourceLabels (options r) ≠ ∅ →
  let labelled := instance (runReconcile r w req).2 in
  (∀ k v, resourceLabels (options r) !! k = Some v →
          GetResourceLabel labelled k = (v, None))
  ∧ (∀ k, resourceLabels (options r) !! k = None →
          (GetResourceLabel labelled k).1 = (GetResourceLabel (Typed o) k).1).
Proof.
  intros Hload Hfin Hdel Hst Hold Hpending labelled. subst labelled.
  rewrite (pending_labels_pass r w req o old) by done.
  cbn [snd instance]. unfold GetResourceLabel, mapIndex.
  cbv [GetLabels SetLabels GetMeta SetMeta Labels TypedMeta]. cbn [mbind option_bind].
  split.
  - intros k v Hk. by rewrite (lookup_union_Some_l _ _ _ _ Hk).
  - intros k Hk. rewrite (lookup_union_r _ _ _ Hk).
    destruct o as [[? ? ? ? labels] ? ? ?]. cbn in Hold. subst labels. cbn.
    by destruct (old !! k).
Qed.

(** ** Hashing *)

Lemma byteZ_range c : 0 ≤ byteZ c < 256.
Proof.
  unfold byteZ. pose proof (N_ascii_bounded c). lia.
Qed.

Lemma byteZ_inj a b : byteZ a = byteZ b → a = b.
Proof.
  unfold byteZ. intros H. apply N2Z.inj in H.
  rewrite <- (ascii_N_embedding a), <- (ascii_N_embedding b). by rewrite H.
Qed.

Lemma lxor_range32 x y :
  0 ≤ x < 2 ^ 32 → 0 ≤ y < 2 ^ 32 → 0 ≤ Z.lxor x y < 2 ^ 32.
Proof.
  intros Hx Hy.
  assert (Hnn : 0 ≤ Z.lxor x y) by (apply Z.lxor_nonneg; lia).
  split; [exact Hnn|].
  destruct (Z.eq_dec (Z.lxor x y) 0) as [->|Hne]; [lia|].
  apply Z.log2_lt_pow2; [lia|].
  pose proof (Z.log2_lxor x y ltac:(lia) ltac:(lia)) as Hlog.
  assert (Z.log2 x < 32).
  { destruct (Z.eq_dec x 0) as [->|?]; [done|]. apply Z.log2_lt_pow2; lia. }
  assert (Z.log2 y < 32).
  { destruct (Z.eq_dec y 0) as [->|?]; [done|]. apply Z.log2_lt_pow2; lia. }
  lia.
Qed.

Lemma mul_prime32_inj x y :
  0 ≤ x < 2 ^ 32 → 0 ≤ y < 2 ^ 32 →
  (x * fnv_prime32) mod 2 ^ 32 = (y * fnv_prime32) mod 2 ^ 32 → x = y.
Proof.
  intros Hx Hy Heq.
  assert (Hinv : ∀ z, 0 ≤ z < 2 ^ 32 →
            (((z * fnv_prime32) mod 2 ^ 32) * 899433627) mod 2 ^ 32 = z).
  { intros z Hz. rewrite Z.mul_mod_idemp_l by done.
    rewrite <- Z.mul_assoc.
    rewrite <- Z.mul_mod_idemp_r by done.
    change ((fnv_prime32 * 899433627) mod 2 ^ 32) with 1.
    rewrite Z.mul_1_r. by apply Z.mod_small. }
  rewrite <- (Hinv x Hx), <- (Hinv y Hy). by rewrite Heq.
Qed.

Lemma fnv32a_step_range hash c : 0 ≤ fnv32a_step hash c < 2 ^ 32.
Proof. unfold fnv32a_step. by apply Z.mod_pos_bound. Qed.

Lemma fnv32a_write_range data : ∀ hash,
  0 ≤ hash < 2 ^ 32 → 0 ≤ fnv32a_write hash data < 2 ^ 32.
Proof.
  induction data as [|c data IH]; intros hash Hh; cbn [fnv32a_write]; [done|].
  apply IH, fnv32a_step_range.
Qed.

Lemma fnv32a_step_inj_byte hash a b :
  0 ≤ hash < 2 ^ 32 → fnv32a_step hash a = fnv32a_step hash b → a = b.
Proof.
  intros Hh Heq. unfold fnv32a_step in Heq.
  pose proof (byteZ_range a). pose proof (byteZ_range b).
  apply mul_prime32_inj in Heq; [|apply lxor_range32; lia..].
  apply byteZ_inj.
  rewrite <- (Z.lxor_0_l (byteZ a)), <- (Z.lxor_0_l (byteZ b)).
  rewrite <- (Z.lxor_nilpotent hash), !Z.lxor_assoc. by rewrite Heq.
Qed.

Lemma fnv32a_step_inj_hash h1 h2 c :
  0 ≤ h1 < 2 ^ 32 → 0 ≤ h2 < 2 ^ 32 →
  fnv32a_step h1 c = fnv32a_step h2 c → h1 = h2.
Proof.
  intros H1 H2 Heq. unfold fnv32a_step in Heq.
  pose proof (byteZ_range c).
  apply mul_prime32_inj in Heq; [|apply lxor_range32; lia..].
  rewrite <- (Z.lxor_0_r h1), <- (Z.lxor_0_r h2).
  rewrite <- (Z.lxor_nilpotent (byteZ c)), <- !Z.lxor_assoc. by rewrite Heq.
Qed.

Lemma fnv32a_write_inj_hash data : ∀ h1 h2,
  0 ≤ h1 < 2 ^ 32 → 0 ≤ h2 < 2 ^ 32 →
  fnv32a_write h1 data = fnv32a_write h2 data → h1 = h2.
Proof.
  induction data as [|c data IH]; intros h1 h2 H1 H2 Heq; cbn in Heq; [done|].
  apply IH in Heq; [|apply fnv32a_step_range..].
  by apply (fnv32a_step_inj_hash h1 h2 c).
Qed.

Lemma fnv32a_write_app pre post : ∀ hash,
  fnv32a_write hash (pre ++ post) = fnv32a_write (fnv32a_write hash pre) post.
Proof.
  induction pre as [|c pre IH]; intros hash; [reflexivity|].
  cbn [String.append fnv32a_write]. apply IH.
Qed.

(** X19. The hash is a 32-bit value, and a marshalling failure gives hash 0
    together with the marshaller's error. *)
Theorem CalculateHash_range {A} (json_Marshal : A → string * option error) x :
  0 ≤ (CalculateHash json_Marshal x).1 < 2 ^ 32
  ∧ (CalculateHash json_Marshal x).2 = (json_Marshal x).2
  ∧ match (json_Marshal x).2 with
    | Some _ => (CalculateHash json_Marshal x).1 = 0
    | None => True
    end.
Proof.
  unfold CalculateHash. destruct (json_Marshal x) as [data [e|]]; cbn.
  - repeat split; lia.
  - repeat split; by apply fnv32a_write_range.
Qed.

(** X20. Two values whose marshalled forms have the same length and differ in
    exactly one byte never get the same hash. *)
Theorem CalculateHash_one_byte_apart {A} (json_Marshal : A → string * option error)
    x y pre post a b :
  json_Marshal x = (pre ++ String a post, None) →
  json_Marshal y = (pre ++ String b post, None) →
  a ≠ b →
  (CalculateHash json_Marshal x).1 ≠ (CalculateHash json_Marshal y).1.
Proof.
  intros Hx Hy Hab. unfold CalculateHash. rewrite Hx, Hy. cbn [fst].
  rewrite !fnv32a_write_app. cbn [fnv32a_write]. intros Heq.
  assert (Hpre : 0 ≤ fnv32a_write fnv_offset32 pre < 2 ^ 32)
    by (by apply fnv32a_write_range).
  apply fnv32a_write_inj_hash in Heq; [|apply fnv32a_step_range..].
  by apply fnv32a_step_inj_byte in Heq.
Qed.

(** Published FNV-1a test vectors. *)
Example fnv32a_vectors :
  fnv32a_write fnv_offset32 "" = 0x811c9dc5
  ∧ fnv32a_write fnv_offset32 "a" = 0xe40c292c
  ∧ fnv32a_write fnv_offset32 "foobar" = 0xbf9cf968.
Proof. vm_compute. done. Qed.

(** ** Filtering the resources that exist *)

Lemma filterStep_fold helper_Get resources : ∀ existing errs,
  fold_left (filterStep helper_Get) resources (existing, errs)
  = ((existing ++ List.filter (getSucceeded helper_Get) resources)%list,
     (errs ++ omap (getFailure helper_Get) resources)%list).
Proof.
  induction resources as [|info resources IH]; intros existing errs.
  - cbn. by rewrite !app_nil_r.
  - cbn [fold_left List.filter omap list_omap]. unfold filterStep at 2.
    unfold getSucceeded at 1, getFailure at 1.
    destruct (helper_Get info) as [err|].
    + destruct (IsNotFound err); rewrite IH; [done|]. by rewrite <- app_assoc.
    + rewrite IH. by rewrite <- app_assoc.
Qed.

(** X21. The list returned is the input filtered to the resources whose [Get]
    succeeded, in input order, whether or not an error is returned with it.
    Resources that are not found are dropped silently; every other failure
    is reported, wrapped with the resource's name and namespace, in input
    order, and an error is returned exactly when there is such a failure. *)
Theorem FilterExistingResources_result helper_Get resources :
  (FilterExistingResources helper_Get resources).1
  = List.filter (getSucceeded helper_Get) resources
  ∧ (FilterExistingResources helper_Get resources).2
    = match omap (getFailure helper_Get) resources with
      | [] => None
      | errs => Some {| Errs := errs |}
      end.
Proof.
  unfold FilterExistingResources. rewrite filterStep_fold. cbn [app].
  destruct (omap (getFailure helper_Get) resources) as [|e errs]; cbn; [done|].
  destruct (decide _) as [_|Hlen]; [done|]. cbn in Hlen. lia.
Qed.

(** ** Manifest parsing and transformation *)

Lemma parseDocument_fold y documents : ∀ objects,
  fold_left (parseDocument y) documents objects
  = {| Items := (Items objects ++ omap (documentItem y) documents)%list;
       Blobs := (Blobs objects ++ omap (documentBlob y) documents)%list |}.
Proof.
  induction documents as [|d documents IH]; intros [items blobs].
  - cbn. by rewrite !app_nil_r.
  - cbn [fold_left omap list_omap]. rewrite IH.
    unfold parseDocument, documentItem, documentBlob.
    destruct (yaml_Unmarshal y (bytes_TrimSpace y d)) as [obj [e|]]; cbn [fst snd];
      destruct (_ || _); cbn [Items Blobs]; by rewrite <- ?app_assoc.
Qed.

(** X22. When the reader ends with [io.EOF], the items and the blobs are
    collected independently over the documents, in order: a document gives
    a blob exactly when it does not unmarshal, and an item exactly when it is
    not empty, is not [null] and leaves a non-empty object, so a
    document that fails half way can give both.  Any other reader error
    discards everything and is returned wrapped. *)
Theorem ParseManifestStringToObjects_result y manifest :
  ParseManifestStringToObjects y manifest
  = match (yaml_documents y manifest).2 with
    | None =>
        (Some {| Items := omap (documentItem y) (yaml_documents y manifest).1;
                 Blobs := omap (documentBlob y) (yaml_documents y manifest).1 |},
         None)
    | Some err => (None, Some (Errorf "invalid YAML doc: " err))
    end.
Proof.
  unfold ParseManifestStringToObjects.
  destruct (yaml_documents y manifest) as [documents [e|]]; cbn [fst snd]; [done|].
  by rewrite parseDocument_fold.
Qed.

Lemma applyTransforms_app object ts1 ts2 : ∀ objects,
  applyTransforms object (ts1 ++ ts2) objects
  = match applyTransforms object ts1 objects with
    | (Some objects, None) => applyTransforms object ts2 objects
    | failure => failure
    end.
Proof.
  induction ts1 as [|t ts1 IH]; intros objects; cbn; [done|].
  destruct (t object objects) as [objects' [e|]]; [done|]. apply IH.
Qed.

Lemma applyTransforms_shape object ts : ∀ objects,
  match applyTransforms object ts objects with
  | (Some _, None) | (None, Some _) => True
  | _ => False
  end.
Proof.
  induction ts as [|t ts IH]; intros objects; cbn; [done|].
  destruct (t object objects) as [objects' [e|]]; [done|]. apply IH.
Qed.

(** X23. [Transform] returns either the resources or an error, never both and
    never neither; with no transforms it is the parser; and transforms
    compose left to right: a list of transforms followed by another gives
    what the second list gives on the result of the first, and the first
    error, of the parser or of a transform, ends the chain. *)
Theorem Transform_composes y manifest object ts1 ts2 :
  match Transform y manifest object ts1 with
  | (Some objects, None) =>
      Transform y manifest object (ts1 ++ ts2) = applyTransforms object ts2 objects
  | (None, Some err) =>
      Transform y manifest object (ts1 ++ ts2) = (None, Some err)
  | _ => False
  end
  ∧ Transform y manifest object [] = ParseManifestStringToObjects y manifest.
Proof.
  unfold Transform, ParseManifestStringToObjects.
  destruct (yaml_documents y manifest) as [documents [e|]]; [done|].
  split; [|done]. rewrite applyTransforms_app.
  pose proof (applyTransforms_shape object ts1
                (fold_left (parseDocument y) documents {| Items := []; Blobs := [] |}))
    as Hshape.
  by destruct (applyTransforms object ts1 _) as [[objects|] [err|]].
Qed.

(** ** The further properties at concrete resources *)

Lemma error_state_retries_witness :
  runReconcile (sampleEngine (Typed errorTyped)) (quietWorld errorTyped) sampleKey =
    (Val (Result_zero, None),
     {| engineOptions := manifestOptions_zero; instance := Typed processingTyped;
        actions := [ActStatusUpdate (Typed processingTyped)] |}).
Proof.
  apply (error_state_retries (sampleEngine (Typed errorTyped))
           (quietWorld errorTyped) sampleKey errorTyped);
    [split; [by eexists|reflexivity] | reflexivity..].
Defined.

Lemma ready_state_is_stable_witness :
  runReconcile (sampleEngine (Typed readyTyped)) (quietWorld readyTyped) sampleKey =
    (Val (Result_zero, None),
     {| engineOptions := manifestOptions_zero; instance := Typed readyTyped;
        actions := [] |}).
Proof.
  apply (ready_state_is_stable (sampleEngine (Typed readyTyped))
           (quietWorld readyTyped) sampleKey readyTyped);
    [split; [by eexists|reflexivity] | reflexivity..].
Defined.

Lemma initial_state_starts_processing_witness :
  runReconcile (sampleEngine (Typed freshTyped)) (quietWorld freshTyped) sampleKey =
    (Val (Result_zero, None),
     {| engineOptions := manifestOptions_zero; instance := Typed processingTyped;
        actions := [ActStatusUpdate (Typed processingTyped)] |}).
Proof.
  apply (initial_state_starts_processing (sampleEngine (Typed freshTyped))
           (quietWorld freshTyped) sampleKey freshTyped);
    [split; [by eexists|reflexivity] | reflexivity..].
Defined.

Lemma pending_labels_are_applied_witness :
  let r := labellingEngine (Typed freshTyped) in
  let w := quietWorld freshTyped in
  ∃ new,
    let labelled := SetLabels (Some new) (Typed freshTyped) in
    runReconcile r w sampleKey =
      (Val (Result_zero, client_Update w labelled),
       {| engineOptions := {| force := force (options r); verify := verify (options r);
                              resourceLabels := ∅ |};
          instance := labelled; actions := [ActUpdate labelled] |})
    ∧ (∀ k v, resourceLabels (options r) !! k = Some v → new !! k = Some v)
    ∧ (∀ k, resourceLabels (options r) !! k = None →
            new !! k = ({["app" := "nginx"]} : gmap string string) !! k)
    ∧ typedState labelled = Some "".
Proof.
  apply (pending_labels_are_applied (labellingEngine (Typed freshTyped))
           (quietWorld freshTyped) sampleKey freshTyped {["app" := "nginx"]});
    [split; [by eexists|reflexivity] | reflexivity.. |].
  intros H. apply (f_equal (λ m : gmap string string, m !! "managed-by")) in H.
  vm_compute in H. discriminate H.
Defined.

Lemma applied_labels_are_readable_witness :
  let r := labellingEngine (Typed freshTyped) in
  let w := quietWorld freshTyped in
  let labelled := instance (runReconcile r w sampleKey).2 in
  (∀ k v, resourceLabels (options r) !! k = Some v →
          GetResourceLabel labelled k = (v, None))
  ∧ (∀ k, resourceLabels (options r) !! k = None →
          (GetResourceLabel labelled k).1 = (GetResourceLabel (Typed freshTyped) k).1).
Proof.
  apply (applied_labels_are_readable (labellingEngine (Typed freshTyped))
           (quietWorld freshTyped) sampleKey freshTyped {["app" := "nginx"]});
    [split; [by eexists|reflexivity] | reflexivity.. |].
  intros H. apply (f_equal (λ m : gmap string string, m !! "managed-by")) in H.
  vm_compute in H. discriminate H.
Defined.

Lemma nil_labels_block_every_pass_witness :
  let r := labellingEngine (Typed unlabelledTyped) in
  let ws := [quietWorld unlabelledTyped; busyWorld; emptyWorld] in
  (∀ w, (runReconcile r (withStore (Some unlabelledTyped) w) sampleKey).1
        = Panicked "assignment to entry in nil map")
  ∧ runPasses true r sampleKey ws (Some unlabelledTyped)
    = (replicate (length ws) [], Some unlabelledTyped).
Proof.
  apply (nil_labels_block_every_pass true (labellingEngine (Typed unlabelledTyped))
           sampleKey _ unlabelledTyped);
    [by eexists | reflexivity.. |].
  intros H. apply (f_equal (λ m : gmap string string, m !! "managed-by")) in H.
  vm_compute in H. discriminate H.
Defined.

Lemma Get_failure_ends_pass_witness :
  runReconcile (sampleEngine (Typed freshTyped)) emptyWorld sampleKey =
    (Val (Result_zero, None),
     startPass manifestOptions_zero (Typed freshTyped)).
Proof.
  apply (Get_failure_ends_pass (sampleEngine (Typed freshTyped)) emptyWorld
           sampleKey (NotFoundError sampleKey)); [by eexists|reflexivity].
Defined.

Lemma install_in_progress_writes_nothing_witness :
  ∃ cfg,
    HandleProcessingState (sampleEngine (Generic processingGeneric)) busyWorld
      (startPass manifestOptions_zero (Generic processingGeneric))
    = (Val None,
       {| engineOptions := manifestOptions_zero;
          instance := Generic processingGeneric;
          actions := [ActNewOperations cfg;
                      ActInstall sampleOperations
                        (sampleInstallInfo processingGeneric)] |}).
Proof.
  apply (install_in_progress_writes_nothing
           (sampleEngine (Generic processingGeneric)) busyWorld
           manifestOptions_zero (Generic processingGeneric)
           sampleOperations (sampleInstallInfo processingGeneric)).
  - vm_compute. apply list_elem_of_further, list_elem_of_here.
  - reflexivity.
Defined.

Lemma uninstall_in_progress_writes_nothing_witness :
  ∃ cfg,
    HandleDeletingState (sampleEngine (Generic deletingGeneric)) busyWorld
      (startPass manifestOptions_zero (Generic deletingGeneric))
    = (Val None,
       {| engineOptions := manifestOptions_zero;
          instance := Generic deletingGeneric;
          actions := [ActNewOperations cfg;
                      ActUninstall sampleOperations
                        (sampleInstallInfo deletingGeneric)] |}).
Proof.
  apply (uninstall_in_progress_writes_nothing
           (sampleEngine (Generic deletingGeneric)) busyWorld
           manifestOptions_zero (Generic deletingGeneric)
           sampleOperations (sampleInstallInfo deletingGeneric)).
  - vm_compute. apply list_elem_of_further, list_elem_of_here.
  - reflexivity.
Defined.

Lemma uninstall_done_releases_finalizer_witness :
  let obj := Generic deletingGeneric in
  let out := HandleDeletingState (sampleEngine obj) emptyWorld
               (startPass manifestOptions_zero obj) in
  let released := (RemoveFinalizer obj deletionFinalizer).1 in
  ∃ cfg,
    out = (Val (client_Update emptyWorld released),
           {| engineOptions := manifestOptions_zero; instance := released;
              actions := [ActNewOperations cfg;
                          ActUninstall sampleOperations
                            (sampleInstallInfo deletingGeneric);
                          ActUpdate released] |})
    ∧ hasDeletionFinalizer released = false
    ∧ (∀ f, f ≠ deletionFinalizer →
            f ∈ GetFinalizers released ↔ f ∈ GetFinalizers obj)
    ∧ getStatusFromObjectInstance emptyWorld released
      = getStatusFromObjectInstance emptyWorld obj.
Proof.
  apply (uninstall_done_releases_finalizer
           (sampleEngine (Generic deletingGeneric)) emptyWorld
           manifestOptions_zero (Generic deletingGeneric)
           sampleOperations (sampleInstallInfo deletingGeneric)).
  - vm_compute. apply list_elem_of_further, list_elem_of_here.
  - reflexivity.
  - reflexivity.
Defined.

Lemma finalizer_gate_in_deleting_witness :
  let gated := Typed deletingTyped in
  runReconcile (sampleEngine (Typed unguardedDeleting))
    (quietWorld unguardedDeleting) sampleKey =
    (Val (Result_zero, None),
     {| engineOptions := manifestOptions_zero; instance := gated;
        actions := [ActUpdate gated] |})
  ∧ hasDeletionFinalizer gated = true
  ∧ typedState gated = Some CustomStateDeleting.
Proof.
  apply (finalizer_gate_in_deleting (sampleEngine (Typed unguardedDeleting))
           (quietWorld unguardedDeleting) sampleKey unguardedDeleting);
    [split; [by eexists|reflexivity] | reflexivity..].
Defined.

Lemma CalculateHash_one_byte_apart_witness :
  (CalculateHash rawMarshal "[1,2]").1 ≠ (CalculateHash rawMarshal "[1,3]").1.
Proof.
  apply (CalculateHash_one_byte_apart rawMarshal _ _ "[1," "]" "2"%char "3"%char);
    [reflexivity | reflexivity | discriminate].
Defined.
